(** * The recursive cascade simulator of [scripts/war_simulator.py]

    A shallow embedding of [WarSimulator.get_city_state] and
    [WarSimulator.run_simulation], and the properties of the daily state
    update and of the simulation loop.

    Numbers.  The script computes on 64-bit floats; here a number is an
    exact rational ([Q]), so rounding error, infinities and NaN are outside
    the model.  The constants 0.5, 0.9, 0.1, 0.95, 0.05, 1.0 and 1.5 are the
    rationals they denote.

    Console output ([print]) is not part of the model. *)

From Stdlib Require Import QArith Qround Qminmax Lqa ZArith Lia.
From stdpp Require Import base option list sorting strings gmap fin_maps.

Local Open Scope string_scope.

(** ** Python and NumPy arithmetic on numbers *)

Module Num.

(** [max(0, x)]: Python's [max] keeps its first argument unless a later
    one is strictly greater. *)
Definition max0 (x : Q) : Q := if Qle_bool x 0 then 0%Q else x.

(** [np.clip(x, 0, 1)] is [minimum(maximum(x, 0), 1)]. *)
Definition clip01 (x : Q) : Q :=
  let y := if Qle_bool 0 x then x else 0%Q in
  if Qle_bool y 1 then y else 1%Q.

(** Round half to even, to an integer. *)
Definition rint (x : Q) : Z :=
  let f := Qfloor x in
  let r := (x - inject_Z f)%Q in
  match (r ?= 1 # 2)%Q with
  | Lt => f
  | Gt => (f + 1)%Z
  | Eq => if Z.even f then f else (f + 1)%Z
  end.

(** [round(x, ndigits)] for [ndigits >= 0]. *)
Definition round (x : Q) (ndigits : nat) : Q :=
  let s := inject_Z (10 ^ Z.of_nat ndigits) in
  (inject_Z (rint (x * s)) / s)%Q.

End Num.

(** ** Python exceptions and the state-and-exception monad *)

Inductive exn : Type :=
  | KeyError (labels : list string)
  | ValueError (msg : string)
  | TypeError
  | IndexError.

Inductive Result (A : Type) : Type :=
  | Ret (a : A)
  | Raise (e : exn).
Arguments Ret {A} a.
Arguments Raise {A} e.

(** A computation over a mutable state [St] that returns or raises; a raised
    exception keeps the state as it was when it was raised. *)
Definition SE (St A : Type) : Type := St -> Result A * St.

#[global] Instance SE_ret St : MRet (SE St) := fun A a st => (Ret a, st).
#[global] Instance SE_bind St : MBind (SE St) := fun A B f m st =>
  match m st with
  | (Ret a, st') => f a st'
  | (Raise e, st') => (Raise e, st')
  end.

Definition raise {St A} (e : exn) : SE St A := fun st => (Raise e, st).

Definition lift {St A} (r : Result A) : SE St A := fun st => (r, st).

(** ** pandas values, Series and rows *)

Inductive Value : Type :=
  | VNum (q : Q)
  | VStr (s : string)
  | VDate (d : Z).

(** A Series is a mapping from labels to values. *)
Abbreviation Series := (gmap string Value).

(** One record of the data frame: the columns [name] and [date], which the
    simulator addresses itself, and the remaining columns by label. *)
Record Row : Type := { name : string; date : Z; cols : Series }.

(** The Series that [iloc] builds from a row holds every column. *)
Definition to_series (r : Row) : Series :=
  <["name" := VStr (name r)]> (<["date" := VDate (date r)]> (cols r)).

Module Series.

Definition has (s : Series) (k : string) : bool :=
  match s !! k with Some _ => true | None => false end.

(** [s[k]] *)
Definition getitem (s : Series) (k : string) : Result Value :=
  match s !! k with
  | Some v => Ret v
  | None => Raise (KeyError [k])
  end.

(** [s[labels]]: the labels that are not in the index are reported
    together. *)
Definition select (s : Series) (labels : list string) : Result (list Value) :=
  match List.filter (fun k => negb (has s k)) labels with
  | [] => Ret (omap (fun k => s !! k) labels)
  | missing => Raise (KeyError missing)
  end.

(** Conversion of one cell by [astype(float)]; a [VStr] is text that does
    not read as a number. *)
Definition as_float (v : Value) : Result Q :=
  match v with
  | VNum q => Ret q
  | VStr s => Raise (ValueError ("could not convert string to float: '" ++ s ++ "'"))
  | VDate _ => Raise TypeError
  end.

Fixpoint astype_float (vs : list Value) : Result (list Q) :=
  match vs with
  | [] => Ret []
  | v :: vs' =>
      match as_float v with
      | Raise e => Raise e
      | Ret q =>
          match astype_float vs' with
          | Raise e => Raise e
          | Ret qs => Ret (q :: qs)
          end
      end
  end.

(** [s[labels].to_frame().T.astype(float)]: the one-row input of a
    predictor, in the predictor's order. *)
Definition frame (s : Series) (labels : list string) : Result (list Q) :=
  match select s labels with
  | Raise e => Raise e
  | Ret vs => astype_float vs
  end.

(** A cell used as an operand of [-] or [*] with a float. *)
Definition operand (v : Value) : Result Q :=
  match v with
  | VNum q => Ret q
  | _ => Raise TypeError
  end.

(** [v == 1] *)
Definition eq1 (v : Value) : bool :=
  match v with
  | VNum q => Qeq_bool q 1
  | _ => false
  end.

End Series.

(** ** The simulator object, the world and the history *)

Inductive Role : Type := FrontDynamics | Encirclement | Capture.

(** One call of a predictor: which one, and the row it was given. *)
Record Call : Type := { role : Role; input : list Q }.

(** The loaded models and their feature names.  [model_C_predict_proba]
    gives the pair of class probabilities of the row. *)
Record WarSimulator : Type := {
  feats_A : list string;
  feats_B : list string;
  feats_C : list string;
  model_A_predict : list Q -> Q;
  model_B_predict : list Q -> Q;
  model_C_predict_proba : list Q -> Q * Q
}.

(** What a run can touch: the data frame [self.df], the Series objects that
    exist (a reference is an index into [objects]), and the predictor calls
    made so far. *)
Record World : Type := {
  df : list Row;
  objects : list Series;
  trace : list Call
}.

Inductive Status : Type := FREE | OCCUPIED.

Record Snapshot : Type := {
  day : Z;
  dist_to_front : Q;
  delta_real : Q;
  encirclement : Q;
  prob_capture : Q;
  status : Status
}.

(** The state the loop body works on: the object [current_state] refers to,
    and the calls made. *)
Record Local : Type := { cur : Series; log : list Call }.

Abbreviation M := (SE World).
Abbreviation L := (SE Local).

Definition obj (w : World) (r : nat) : Series := default ∅ (objects w !! r).

(** Allocation of a new Series object. *)
Definition alloc (s : Series) : M nat := fun w =>
  (Ret (length (objects w)),
   {| df := df w; objects := (objects w ++ [s])%list; trace := trace w |}).

(** [r.copy()] *)
Definition copy (r : nat) : M nat := fun w => alloc (obj w r) w.

(** Run statements that work on the object behind the reference [r]. *)
Definition on_object {A} (r : nat) (m : L A) : M A := fun w =>
  let '(res, st) := m {| cur := obj w r; log := trace w |} in
  (res, {| df := df w; objects := <[r := cur st]> (objects w); trace := log st |}).

Definition item (k : string) : L Value := fun st => (Series.getitem (cur st) k, st).

Definition setitem (k : string) (v : Value) : L unit := fun st =>
  (Ret tt, {| cur := <[k := v]> (cur st); log := log st |}).

Definition frame (labels : list string) : L (list Q) := fun st =>
  (Series.frame (cur st) labels, st).

Definition predict {B} (r : Role) (f : list Q -> B) (x : list Q) : L B := fun st =>
  (Ret (f x), {| cur := cur st; log := (log st ++ [{| role := r; input := x |}])%list |}).

(** ** [WarSimulator.get_city_state] *)

Definition date_le (a b : Row) : Prop := (date a <= date b)%Z.

#[global] Instance date_le_dec : RelDecision date_le.
Proof. intros a b. unfold date_le. apply _. Defined.

(** [sort_values('date')]: ascending by date. *)
Definition sort_values_date (l : list Row) : list Row :=
  merge_sort date_le l.

(** [.iloc[-1]] *)
Definition iloc_last (l : list Row) : Result Row :=
  match last l with
  | Some r => Ret r
  | None => Raise IndexError
  end.

Definition get_city_state (city_name : string) : M nat := fun w =>
  let city_data := List.filter (fun r => String.eqb (name r) city_name) (df w) in
  match city_data with
  | [] => raise (ValueError ("City '" ++ city_name ++ "' not found.")) w
  | _ =>
      (r ← lift (iloc_last (sort_values_date city_data));
       o ← alloc (to_series r);
       copy o) w
  end.

(** ** [WarSimulator.run_simulation] *)

Definition modifiers : gmap string Q :=
  {[ "conservative" := 1 # 2; "inertial" := 1%Q; "aggressive" := 3 # 2 ]}.

(** [range(lo, hi)] *)
Definition py_range (lo hi : Z) : list Z :=
  map (fun i => (lo + Z.of_nat i)%Z) (seq 0 (Z.to_nat (hi - lo))).

(** The body of the loop for one day: the snapshot appended to the history
    and the decision [is_captured]. *)
Definition day_body (self : WarSimulator) (modifier : Q) (day : Z)
  : L (Snapshot * bool) :=
  input_A ← frame (feats_A self);
  pred_delta ← predict FrontDynamics (model_A_predict self) input_A;
  let adjusted_delta := (pred_delta * modifier)%Q in
  d ← item "dist_to_front_m" ≫= (fun v => lift (Series.operand v));
  let new_dist := Num.max0 (d - adjusted_delta) in
  setitem "delta_dist_daily" (VNum adjusted_delta);;
  m7 ← item "momentum_7d" ≫= (fun v => lift (Series.operand v));
  setitem "momentum_7d" (VNum (m7 * (9 # 10) + adjusted_delta * (1 # 10)));;
  m30 ← item "momentum_30d" ≫= (fun v => lift (Series.operand v));
  setitem "momentum_30d" (VNum (m30 * (95 # 100) + adjusted_delta * (5 # 100)));;
  setitem "dist_to_front_m" (VNum new_dist);;
  input_B ← frame (feats_B self);
  raw ← predict Encirclement (model_B_predict self) input_B;
  let pred_encirclement := Num.clip01 raw in
  setitem "encirclement_score" (VNum pred_encirclement);;
  input_C ← frame (feats_C self);
  proba ← predict Capture (model_C_predict_proba self) input_C;
  let prob_capture := snd proba in
  let is_captured := negb (Qle_bool prob_capture (1 # 2)) in
  mret ({| day := day;
           dist_to_front := Num.round new_dist 0;
           delta_real := Num.round adjusted_delta 1;
           encirclement := Num.round pred_encirclement 3;
           prob_capture := Num.round prob_capture 3;
           status := if is_captured then OCCUPIED else FREE |},
        is_captured).

(** The [for] loop with its [break]. *)
Fixpoint loop (self : WarSimulator) (modifier : Q) (days : list Z)
    (history : list Snapshot) : L (list Snapshot) :=
  match days with
  | [] => mret history
  | day :: rest =>
      '(snap, is_captured) ← day_body self modifier day;
      let history := (history ++ [snap])%list in
      if is_captured : bool then mret history
      else loop self modifier rest history
  end.

(** The result is [None] for a city that is already occupied, and the data
    frame of the history otherwise. *)
Definition run_simulation (self : WarSimulator) (city_name : string) (days : Z)
    (scenario : string) : M (option (list Snapshot)) :=
  let modifier := default 1%Q (modifiers !! scenario) in
  current_state ← get_city_state city_name;
  occupied ← on_object current_state (v ← item "is_captured"; mret (Series.eq1 v));
  if occupied : bool then mret None
  else
    history ← on_object current_state (loop self modifier (py_range 1 (days + 1)) []);
    mret (Some history).

(** ** Reading numbers off a Series *)

Definition is_num (s : Series) (k : string) : bool :=
  match s !! k with Some (VNum _) => true | _ => false end.

(** The number at label [k] (0 where the cell is absent or not a number). *)
Definition num_at (s : Series) (k : string) : Q :=
  match s !! k with Some (VNum q) => q | _ => 0%Q end.

Definition nums (s : Series) (labels : list string) : list Q :=
  map (num_at s) labels.

(** The labels that [s[labels]] reports as not in the index. *)
Definition missing (s : Series) (labels : list string) : list string :=
  List.filter (fun k => negb (Series.has s k)) labels.

(** The labels a day reads: the features of the three predictors and the
    three cells of the momentum and distance update. *)
Definition required (self : WarSimulator) : list string :=
  (feats_A self ++ feats_B self ++ feats_C self
   ++ ["dist_to_front_m"; "momentum_7d"; "momentum_30d"])%list.

(** Every label a day reads holds a number. *)
Definition ready (self : WarSimulator) (s : Series) : bool :=
  forallb (is_num s) (required self).

(** The labels the loop writes. *)
Definition mutated : list string :=
  ["delta_dist_daily"; "momentum_7d"; "momentum_30d"; "dist_to_front_m";
   "encirclement_score"].

(** ** The state update rule, stage by stage

    The stages as the specification words them, each a function of the
    state it is given. *)

Module Stage.
Section Stage.
Variable self : WarSimulator.
Variable modifier : Q.

(** Front dynamics: the prediction on the state, times the modifier. *)
Definition adjusted_delta (s : Series) : Q :=
  (model_A_predict self (nums s (feats_A self)) * modifier)%Q.

Definition new_distance (s : Series) : Q :=
  Num.max0 (num_at s "dist_to_front_m" - adjusted_delta s).

(** Momentum update: the four field writes. *)
Definition momentum_update (s : Series) : Series :=
  let a := adjusted_delta s in
  <["dist_to_front_m" := VNum (new_distance s)]>
    (<["momentum_30d" := VNum (num_at s "momentum_30d" * (95 # 100) + a * (5 # 100))]>
       (<["momentum_7d" := VNum (num_at s "momentum_7d" * (9 # 10) + a * (1 # 10))]>
          (<["delta_dist_daily" := VNum a]> s))).

(** Encirclement: the clipped score of the updated state, written back. *)
Definition encirclement_score (s1 : Series) : Q :=
  Num.clip01 (model_B_predict self (nums s1 (feats_B self))).

Definition encirclement_stage (s1 : Series) : Series :=
  <["encirclement_score" := VNum (encirclement_score s1)]> s1.

(** Capture: the probability of the positive class on the fully updated
    state. *)
Definition capture_probability (s2 : Series) : Q :=
  snd (model_C_predict_proba self (nums s2 (feats_C self))).

(** The state a day leaves, and the probability the day computes. *)
Definition day_state (s : Series) : Series :=
  encirclement_stage (momentum_update s).

Definition day_probability (s : Series) : Q :=
  capture_probability (day_state s).

(** The three predictor calls of a day, in order. *)
Definition day_calls (s : Series) : list Call :=
  [ {| role := FrontDynamics; input := nums s (feats_A self) |};
    {| role := Encirclement; input := nums (momentum_update s) (feats_B self) |};
    {| role := Capture; input := nums (day_state s) (feats_C self) |} ].

(** The state at the start of day [n + 1]. *)
Definition state_after (n : nat) (anchor : Series) : Series :=
  Nat.iter n day_state anchor.

(** The capture probability computed on day [n + 1]. *)
Definition probability_on (n : nat) (anchor : Series) : Q :=
  day_probability (state_after n anchor).

End Stage.
End Stage.

(** What a day computes from the state [s] it starts in, when every cell it
    reads holds a number: whether it gets that far, the decision, and the
    snapshot. *)
Section Day.
Variable self : WarSimulator.
Variable modifier : Q.

Definition day_ready (s : Series) : bool :=
  forallb (is_num s) (feats_A self)
  && is_num s "dist_to_front_m" && is_num s "momentum_7d" && is_num s "momentum_30d"
  && forallb (is_num (Stage.momentum_update self modifier s)) (feats_B self)
  && forallb (is_num (Stage.day_state self modifier s)) (feats_C self).

Definition day_captured (s : Series) : bool :=
  negb (Qle_bool (Stage.day_probability self modifier s) (1 # 2)).

Definition day_snapshot (d : Z) (s : Series) : Snapshot :=
  {| day := d;
     dist_to_front := Num.round (Stage.new_distance self modifier s) 0;
     delta_real := Num.round (Stage.adjusted_delta self modifier s) 1;
     encirclement :=
       Num.round (Stage.encirclement_score self (Stage.momentum_update self modifier s)) 3;
     prob_capture := Num.round (Stage.day_probability self modifier s) 3;
     status := if day_captured s then OCCUPIED else FREE |}.

Definition day_end (st : Local) : Local :=
  {| cur := Stage.day_state self modifier (cur st);
     log := (log st ++ Stage.day_calls self modifier (cur st))%list |}.
End Day.

(** The history the loop builds from the state [s] over the days [days]
    when every day completes: a snapshot a day, up to and including the
    first day that decides capture. *)
Fixpoint history_from (self : WarSimulator) (modifier : Q) (s : Series)
    (days : list Z) : list Snapshot :=
  match days with
  | [] => []
  | d :: rest =>
      day_snapshot self modifier d s
      :: (if day_captured self modifier s then []
          else history_from self modifier (Stage.day_state self modifier s) rest)
  end.

(** The modifier [run_simulation] takes for a scenario label. *)
Definition modifier_of (scenario : string) : Q :=
  default 1%Q (modifiers !! scenario).

(** ** Stub predictors and a small data frame

    The feature names are those the three models are trained on
    ([FEATURES] of [cascade1.py], [cascade2.py] and [cascade3.py]); the
    predictors are stubs. *)

Module Demo.

Definition features_A : list string :=
  ["dist_to_front_m"; "encirclement_score"; "pct_occupied";
   "terrain_score"; "fortification_level"; "is_transport_hub";
   "population"; "geo_area_km2"; "symbolic_weight";
   "delta_dist_daily"; "momentum_7d"; "momentum_30d";
   "ru_total_lag1"; "uk_total"; "ratio_total";
   "ru_artillery_lag1"; "uk_artillery";
   "ru_missiles_launched_lag1";
   "ru_total_lag3"; "ru_total_lag7"].

Definition features_B : list string :=
  ["dist_to_front_m"; "fortification_level"; "terrain_score";
   "is_transport_hub"; "geo_area_km2"; "ru_armor_lag1"; "uk_artillery";
   "delta_dist_daily"].

Definition features_C : list string :=
  ["encirclement_score"; "dist_to_front_m"; "pct_occupied";
   "fortification_level"; "population"; "geo_area_km2"; "ru_total_lag7";
   "uk_total"; "momentum_30d"].

(** Predictors that answer [a], [b] and the probability [c] whatever
    the row. *)
Definition stub (a b c : Q) : WarSimulator :=
  {| feats_A := features_A; feats_B := features_B; feats_C := features_C;
     model_A_predict := fun _ => a;
     model_B_predict := fun _ => b;
     model_C_predict_proba := fun _ => ((1 - c)%Q, c) |}.

(** A capture model that looks at the distance (its second feature): 0.9
    within [near] metres of the front, 0.1 farther away. *)
Definition proba_near (near : Q) (row : list Q) : Q * Q :=
  match row with
  | _ :: dist :: _ => if Qle_bool dist near then (1 # 10, 9 # 10) else (9 # 10, 1 # 10)
  | _ => (1%Q, 0%Q)
  end.

Definition stub_near (a b near : Q) : WarSimulator :=
  {| feats_A := features_A; feats_B := features_B; feats_C := features_C;
     model_A_predict := fun _ => a;
     model_B_predict := fun _ => b;
     model_C_predict_proba := proba_near near |}.

(** A front model that looks at the distance (its first feature): 100 m a
    day from 1000 m on, 400 m a day between 900 m and 1000 m, and nothing
    within 900 m. *)
Definition surge (row : list Q) : Q :=
  match row with
  | dist :: _ =>
      if Qle_bool dist 900 then 0%Q
      else if Qle_bool 1000 dist then 100%Q else 400%Q
  | [] => 0%Q
  end.

Definition stub_surge : WarSimulator :=
  {| feats_A := features_A; feats_B := features_B; feats_C := features_C;
     model_A_predict := surge;
     model_B_predict := fun _ => 0%Q;
     model_C_predict_proba := fun _ => (1%Q, 0%Q) |}.

Definition columns (dist captured : Q) : Series :=
  list_to_map
    [("dist_to_front_m", VNum dist); ("encirclement_score", VNum 0);
     ("pct_occupied", VNum 0); ("terrain_score", VNum 3);
     ("fortification_level", VNum 2); ("is_transport_hub", VNum 1);
     ("population", VNum 150000); ("geo_area_km2", VNum 117);
     ("symbolic_weight", VNum 8); ("delta_dist_daily", VNum 0);
     ("momentum_7d", VNum 0); ("momentum_30d", VNum 0);
     ("ru_total_lag1", VNum 1200); ("uk_total", VNum 900);
     ("ratio_total", VNum (4 # 3)); ("ru_artillery_lag1", VNum 40);
     ("uk_artillery", VNum 25); ("ru_missiles_launched_lag1", VNum 12);
     ("ru_total_lag3", VNum 1100); ("ru_total_lag7", VNum 1000);
     ("ru_armor_lag1", VNum 15); ("is_captured", VNum captured);
     ("oblast", VStr "Donetsk")].

Definition row (city : string) (date : Z) (dist captured : Q) : Row :=
  {| name := city; date := date; cols := columns dist captured |}.

(** Constant predictors over the given feature names. *)
Definition stub_with (fa fb fc : list string) : WarSimulator :=
  {| feats_A := fa; feats_B := fb; feats_C := fc;
     model_A_predict := fun _ => 10%Q;
     model_B_predict := fun _ => 0%Q;
     model_C_predict_proba := fun _ => (1%Q, 0%Q) |}.

Definition frame_of (rows : list Row) : World :=
  {| df := rows; objects := []; trace := [] |}.

(** Three records of one free city, not in date order, one of an occupied
    city and one of a city far from the front. *)
Definition world : World :=
  frame_of [row "Kramatorsk" 19 120 0; row "Kramatorsk" 21 100 0;
            row "Kramatorsk" 20 110 0; row "Mariupol" 21 0 1;
            row "Lyman" 21 1000 0].

Definition state (dist : Q) : Local :=
  {| cur := to_series (row "Kramatorsk" 21 dist 0); log := [] |}.

End Demo.

(** The history a run returned (empty when it returned none). *)
Definition history_of (r : Result (option (list Snapshot))) : list Snapshot :=
  match r with Ret (Some h) => h | _ => [] end.

Definition returned {A} (r : Result A) : bool :=
  match r with Ret _ => true | Raise _ => false end.

(** ** Notions used to state the properties *)

(** The records of a city, as [get_city_state] selects them. *)
Definition city_data (w : World) (city_name : string) : list Row :=
  List.filter (fun r => String.eqb (name r) city_name) (df w).

(** The world after a successful lookup of the row [r]. *)
Definition looked_up (w : World) (r : Row) : World :=
  {| df := df w;
     objects := (objects w ++ [to_series r; to_series r])%list;
     trace := trace w |}.

(** [keeps st st']: outside the written labels, [st'] holds what [st] held. *)
Definition keeps (st st' : Local) : Prop :=
  forall k, k ∉ mutated -> cur st' !! k = cur st !! k.

Definition preserving {A} (m : L A) : Prop := forall st, keeps st (snd (m st)).

(** The result of [m] and the object it leaves depend on the object it is
    given only, not on the calls logged before. *)
Definition log_blind {A} (m : L A) : Prop :=
  forall st1 st2, cur st1 = cur st2 ->
    fst (m st1) = fst (m st2) /\ cur (snd (m st1)) = cur (snd (m st2)).

(** ** The rest of [war_simulator.py] *)

(** [self.last_date = self.df['date'].max()] of [WarSimulator.__init__]
    ([None] for the [NaT] of an empty frame). *)
Definition last_date (rows : list Row) : option Z :=
  foldr (fun r acc =>
           Some (match acc with Some d => Z.max (date r) d | None => date r end))
        None rows.

(** The usage example at the end of the script: the three scenarios, one
    after the other, on one simulator. *)
Definition main (self : WarSimulator) (target_city : string)
  : M (option (list Snapshot) * option (list Snapshot) * option (list Snapshot)) :=
  results_conservative ← run_simulation self target_city 60 "conservative";
  results_inertial ← run_simulation self target_city 60 "inertial";
  results_aggressive ← run_simulation self target_city 60 "aggressive";
  mret (results_conservative, results_inertial, results_aggressive).

(** ** Ring repair ([process_data.py], [extract_physical.py])

    [repair_coordinates] and [repair_geo_json] close the rings of the
    polygons they are given.  A position is its list of numbers; the
    geometries are the GeoJSON types whose coordinates are a position, a
    list of positions, a list of rings or a list of lists of rings. *)

Module Geo.

Definition Point : Type := list Q.
Definition Ring : Type := list Point.

(** [p == q] on two lists of numbers: same length and equal numbers. *)
Fixpoint point_eqb (p q : Point) : bool :=
  match p, q with
  | [], [] => true
  | a :: p', b :: q' => Qeq_bool a b && point_eqb p' q'
  | _, _ => false
  end.

(** [close_ring]: a ring of more than two points whose first and last
    points differ gets its first point appended. *)
Definition close_ring (ring : Ring) : Ring :=
  match ring with
  | [] => ring
  | first :: _ =>
      if Nat.ltb 2 (length ring) && negb (point_eqb first (List.last ring first))
      then (ring ++ [first])%list
      else ring
  end.

Inductive Geometry : Type :=
  | GPoint (coordinates : Point)
  | LineString (coordinates : list Point)
  | Polygon (coordinates : list Ring)
  | MultiPolygon (coordinates : list (list Ring)).

(** [repair_coordinates] of [process_data.py]. *)
Definition repair_coordinates (geometry : Geometry) : Geometry :=
  match geometry with
  | Polygon coords => Polygon (map close_ring coords)
  | MultiPolygon coords => MultiPolygon (map (map close_ring) coords)
  | _ => geometry
  end.

(** [repair_geo_json] of [extract_physical.py]: the same, with [None] for
    no geometry. *)
Definition repair_geo_json (geometry : option Geometry) : option Geometry :=
  match geometry with
  | None => None
  | Some g => Some (repair_coordinates g)
  end.

(** The rings of a geometry. *)
Definition rings (g : Geometry) : list Ring :=
  match g with
  | Polygon coords => coords
  | MultiPolygon coords => concat coords
  | _ => []
  end.

(** A ring whose first and last points are equal. *)
Definition closed (ring : Ring) : bool :=
  match ring with
  | [] => true
  | first :: _ => point_eqb first (List.last ring first)
  end.

End Geo.

(** ** The record of a city on a day ([process_data.py])

    The body of the loop over the active cities, as a function of what the
    geometry library returns: the area of the city that is occupied, the
    area of the city, its distance to the occupied zone, and the same two
    areas for the buffer around the city.  The areas of the city and of the
    buffer are taken positive (a division by a zero area is outside the
    model). *)

Module ProcessData.

(** [max(0.0, min(1.0, x))] *)
Definition clamp01 (x : Q) : Q :=
  let y := if Qle_bool 1 x then 1%Q else x in
  if Qle_bool y 0 then 0%Q else y.

Record CityDay : Type := {
  pct_occupied : Q;
  dist_to_front_m : Q;
  encirclement_score : Q;
  is_captured : Z
}.

Definition city_record (occupied_area total_area_m2 geom_distance
    buffer_occupied_area buffer_area : Q) : CityDay :=
  let pct := clamp01 (occupied_area / total_area_m2) in
  let distance := if Qle_bool pct (1 # 100) then geom_distance else 0%Q in
  let pct_surrounded := clamp01 (buffer_occupied_area / buffer_area) in
  let captured := if Qle_bool (95 # 100) pct then 1%Z else 0%Z in
  {| pct_occupied := Num.round pct 4;
     dist_to_front_m := Num.round distance 0;
     encirclement_score := Num.round pct_surrounded 4;
     is_captured := captured |}.

End ProcessData.

(** ** The strategic priority score ([merger.py]) *)

Module Merger.

(** [v < c] and [v >= c] for a cell and a number. *)
Definition lt (v : Value) (c : Q) : Result bool :=
  match v with
  | VNum q => Ret (negb (Qle_bool c q))
  | _ => Raise TypeError
  end.

Definition ge (v : Value) (c : Q) : Result bool :=
  match v with
  | VNum q => Ret (Qle_bool c q)
  | _ => Raise TypeError
  end.

Definition bind {A B} (r : Result A) (f : A -> Result B) : Result B :=
  match r with
  | Ret a => f a
  | Raise e => Raise e
  end.

(** [calculate_strategic_priority(row)]: [and] reads the symbolic weight
    only when the first comparison holds; each [elif] reads the distance
    again. *)
Definition calculate_strategic_priority (row : Series) : Result Z :=
  bind (bind (Series.getitem row "dist_to_front_m") (fun d => lt d 20000)) (fun near =>
  bind (if near : bool
        then bind (Series.getitem row "symbolic_weight") (fun sw => ge sw 8)
        else Ret false) (fun critical =>
  if critical : bool then Ret 3%Z
  else
    bind (bind (Series.getitem row "dist_to_front_m") (fun d => lt d 30000)) (fun high =>
    if high : bool then Ret 2%Z
    else
      bind (bind (Series.getitem row "dist_to_front_m") (fun d => lt d 50000)) (fun active =>
      if active : bool then Ret 1%Z else Ret 0%Z)))).

End Merger.

(** ** The temporal split of the training scripts ([cascade1.py],
    [cascade2.py], [cascade3.py])

    Dates are counted in days as Python's [date.toordinal()] counts them.
    Each script selects its three sets with a date mask; [cascade2.py] and
    [cascade3.py] combine it with a row mask of their own ([relevant_zone],
    [valid_rows]), which is [keep] below; [cascade1.py] has none.  The
    columns the row masks compare are numeric columns of the CSV file: a
    cell that is not a number is a missing value, and a comparison with a
    missing value is false. *)

Module Training.

Definition date_2024_01_01 : Z := 738886.
Definition date_2024_07_01 : Z := 739068.

Definition train_mask (r : Row) : bool := (date r <? date_2024_01_01)%Z.

Definition val_mask (r : Row) : bool :=
  (date_2024_01_01 <=? date r)%Z && (date r <? date_2024_07_01)%Z.

Definition test_mask (r : Row) : bool := (date_2024_07_01 <=? date r)%Z.

(** [df.loc[mask]]: the rows of the mask, in the order of the frame. *)
Definition loc (mask : Row -> bool) (rows : list Row) : list Row :=
  List.filter mask rows.

(** One cell of a numeric column; [None] is the missing value. *)
Definition cell (r : Row) (k : string) : option Q :=
  match cols r !! k with
  | Some (VNum q) => Some q
  | _ => None
  end.

(** [df[k] < c], [df[k] > c] and [df[k] == c] at one row. *)
Definition lt_cell (r : Row) (k : string) (c : Q) : bool :=
  match cell r k with
  | Some q => negb (Qle_bool c q)
  | None => false
  end.

Definition gt_cell (r : Row) (k : string) (c : Q) : bool :=
  match cell r k with
  | Some q => negb (Qle_bool q c)
  | None => false
  end.

Definition eq_cell (r : Row) (k : string) (c : Q) : bool :=
  match cell r k with
  | Some q => Qeq_bool q c
  | None => false
  end.

(** The literal [0.1] of [cascade3.py]: the double nearest to one tenth. *)
Definition tenth : Q := 3602879701896397 # 36028797018963968.

(** [cascade2.py]: [df['dist_to_front_m'] < 20000] *)
Definition relevant_zone (r : Row) : bool := lt_cell r "dist_to_front_m" 20000.

(** [cascade3.py]: [df['is_captured'] == 0] *)
Definition free_cities_mask (r : Row) : bool := eq_cell r "is_captured" 0.

(** [cascade3.py]:
    [(df['dist_to_front_m'] < 5000) | (df['pct_occupied'] > 0.1)] *)
Definition kill_zone_mask (r : Row) : bool :=
  lt_cell r "dist_to_front_m" 5000 || gt_cell r "pct_occupied" tenth.

(** [cascade3.py]: [free_cities_mask & kill_zone_mask] *)
Definition valid_rows (r : Row) : bool := free_cities_mask r && kill_zone_mask r.

(** [cascade1.py] has no row mask. *)
Definition all_rows (r : Row) : bool := true.

(** [mask & keep] *)
Definition both (mask keep : Row -> bool) (r : Row) : bool := mask r && keep r.

(** The rows of [X_train], [X_val] and [X_test]: [keep] is [all_rows] in
    [cascade1.py], [relevant_zone] in [cascade2.py] and [valid_rows] in
    [cascade3.py]. *)
Definition train_set (keep : Row -> bool) (rows : list Row) : list Row :=
  loc (both train_mask keep) rows.

Definition val_set (keep : Row -> bool) (rows : list Row) : list Row :=
  loc (both val_mask keep) rows.

Definition test_set (keep : Row -> bool) (rows : list Row) : list Row :=
  loc (both test_mask keep) rows.

End Training.

(** ** Notions used to state the further properties *)

(** The roles of the calls of [n] completed days. *)
Definition roles_of_days (n : nat) : list Role :=
  concat (replicate n [FrontDynamics; Encirclement; Capture]).

(** A data frame whose only record lacks the column [is_captured]. *)
Definition frame_without_flag : World :=
  {| df := [ {| name := "Izium"; date := 21;
                cols := delete "is_captured" (Demo.columns 500 0) |} ];
     objects := []; trace := [] |}.

(** * Properties *)

(** ** Arithmetic *)

Section NumFacts.
Local Open Scope Q_scope.

Lemma max0_nonneg x : 0 <= Num.max0 x.
Proof.
  unfold Num.max0. destruct (Qle_bool x 0) eqn:E; [lra|].
  destruct (Qlt_le_dec 0 x) as [H|H]; [lra|].
  apply Qle_bool_iff in H. congruence.
Qed.

Lemma max0_spec x : (x <= 0 /\ Num.max0 x = 0) \/ (0 < x /\ Num.max0 x = x).
Proof.
  unfold Num.max0. destruct (Qle_bool x 0) eqn:E.
  - left. apply Qle_bool_iff in E. auto.
  - right. split; [|reflexivity].
    destruct (Qlt_le_dec 0 x) as [H|H]; [lra|].
    apply Qle_bool_iff in H. congruence.
Qed.

Lemma max0_mono x y : x <= y -> Num.max0 x <= Num.max0 y.
Proof.
  intros H. destruct (max0_spec x) as [[? ->]|[? ->]], (max0_spec y) as [[? ->]|[? ->]]; lra.
Qed.

Lemma clip01_bounds x : 0 <= Num.clip01 x <= 1.
Proof.
  unfold Num.clip01.
  destruct (Qle_bool 0 x) eqn:E0.
  - apply Qle_bool_iff in E0. destruct (Qle_bool x 1) eqn:E1.
    + apply Qle_bool_iff in E1. lra.
    + lra.
  - replace (Qle_bool 0 1) with true by reflexivity. lra.
Qed.

Lemma rint_cases x :
  let f := Qfloor x in
  let r := x - inject_Z f in
  (r < 1 # 2 /\ Num.rint x = f)
  \/ (1 # 2 < r /\ Num.rint x = (f + 1)%Z)
  \/ (r == 1 # 2 /\ Num.rint x = if Z.even f then f else (f + 1)%Z).
Proof.
  intros f r. unfold Num.rint. fold f. fold r.
  destruct (r ?= 1 # 2) eqn:E.
  - right; right. split; [|reflexivity]. now apply Qeq_alt.
  - left. split; [|reflexivity]. now apply Qlt_alt.
  - right; left. split; [|reflexivity]. now apply Qgt_alt in E.
Qed.

Lemma rint_mono x y : x <= y -> (Num.rint x <= Num.rint y)%Z.
Proof.
  intros Hxy.
  pose proof (Qfloor_resp_le _ _ Hxy) as Hfg.
  pose proof (Qfloor_le x) as Hx1. pose proof (Qlt_floor x) as Hx2.
  pose proof (Qfloor_le y) as Hy1. pose proof (Qlt_floor y) as Hy2.
  destruct (Z.eq_dec (Qfloor x) (Qfloor y)) as [Heq|Hne].
  - destruct (rint_cases x) as [[Hr ->]|[[Hr ->]|[Hr ->]]],
             (rint_cases y) as [[Hs ->]|[[Hs ->]|[Hs ->]]];
      rewrite <- ?Heq in *; try destruct (Z.even (Qfloor x)); try lia;
      exfalso; lra.
  - assert (Qfloor x + 1 <= Qfloor y)%Z by lia.
    destruct (rint_cases x) as [[_ ->]|[[_ ->]|[_ ->]]],
             (rint_cases y) as [[_ ->]|[[_ ->]|[_ ->]]];
      try destruct (Z.even (Qfloor x)); try destruct (Z.even (Qfloor y)); lia.
Qed.

Lemma rint_inject n : Num.rint (inject_Z n) = n.
Proof.
  destruct (rint_cases (inject_Z n)) as [[Hr ->]|[[Hr ->]|[Hr ->]]];
    rewrite Qfloor_Z in *; try reflexivity; exfalso; lra.
Qed.

Lemma scale_pos n : 0 < inject_Z (10 ^ Z.of_nat n).
Proof.
  replace 0 with (inject_Z 0) by reflexivity. rewrite <- Zlt_Qlt.
  apply Z.pow_pos_nonneg; lia.
Qed.

Lemma round_mono x y n : x <= y -> Num.round x n <= Num.round y n.
Proof.
  intros H. unfold Num.round.
  pose proof (scale_pos n) as Hs.
  set (s := inject_Z (10 ^ Z.of_nat n)) in *.
  assert (x * s <= y * s) as Hm by (apply Qmult_le_compat_r; lra).
  apply rint_mono in Hm. rewrite Zle_Qle in Hm.
  unfold Qdiv. apply Qmult_le_compat_r; [exact Hm|].
  apply Qlt_le_weak, Qinv_lt_0_compat, Hs.
Qed.

Lemma round_inject k n : Num.round (inject_Z k) n == inject_Z k.
Proof.
  unfold Num.round. pose proof (scale_pos n) as Hs.
  set (z := (10 ^ Z.of_nat n)%Z) in *.
  rewrite <- inject_Z_mult, rint_inject, inject_Z_mult.
  field. lra.
Qed.

Lemma round_unit x n : 0 <= x <= 1 -> 0 <= Num.round x n <= 1.
Proof.
  intros [H0 H1]. split.
  - rewrite <- (round_inject 0 n). now apply round_mono.
  - rewrite <- (round_inject 1 n). now apply round_mono.
Qed.
End NumFacts.

(** ** Reading a Series *)

Lemma is_num_lookup (s : Series) k : is_num s k = true -> s !! k = Some (VNum (num_at s k)).
Proof. unfold is_num, num_at. destruct (s !! k) as [[]|]; congruence. Qed.

Lemma is_num_insert (s : Series) k q k' :
  is_num s k' = true -> is_num (<[k := VNum q]> s) k' = true.
Proof.
  unfold is_num. destruct (decide (k = k')) as [->|Hne].
  - now rewrite lookup_insert_eq.
  - now rewrite lookup_insert_ne.
Qed.

Lemma is_num_insert_eq (s : Series) k q : is_num (<[k := VNum q]> s) k = true.
Proof. unfold is_num. now rewrite lookup_insert_eq. Qed.

Lemma missing_numeric (s : Series) labels :
  forallb (is_num s) labels = true -> missing s labels = [].
Proof.
  unfold missing. induction labels as [|k l IH]; simpl; [reflexivity|].
  intros [Hk Hl]%andb_prop. unfold Series.has at 1.
  rewrite (is_num_lookup _ _ Hk). simpl. auto.
Qed.

Lemma omap_numeric (s : Series) labels :
  forallb (is_num s) labels = true ->
  omap (fun k => s !! k) labels = map (fun k => VNum (num_at s k)) labels.
Proof.
  induction labels as [|k l IH]; simpl; [reflexivity|].
  intros [Hk Hl]%andb_prop.
  rewrite (is_num_lookup _ _ Hk). simpl. f_equal. now apply IH.
Qed.

Lemma select_numeric (s : Series) labels :
  forallb (is_num s) labels = true ->
  Series.select s labels = Ret (map (fun k => VNum (num_at s k)) labels).
Proof.
  intros H. unfold Series.select. fold (missing s labels).
  rewrite (missing_numeric _ _ H). f_equal. now apply omap_numeric.
Qed.

Lemma astype_float_nums (s : Series) labels :
  Series.astype_float (map (fun k => VNum (num_at s k)) labels) = Ret (nums s labels).
Proof.
  induction labels as [|k l IH]; simpl; [reflexivity|]. now rewrite IH.
Qed.

Lemma frame_numeric (s : Series) labels :
  forallb (is_num s) labels = true -> Series.frame s labels = Ret (nums s labels).
Proof.
  intros H. unfold Series.frame. rewrite (select_numeric _ _ H).
  apply astype_float_nums.
Qed.

(** Conversely, a frame that is built reads the numbers of the Series. *)
Lemma select_Ret (s : Series) labels vs :
  Series.select s labels = Ret vs -> Forall2 (fun k v => s !! k = Some v) labels vs.
Proof.
  unfold Series.select. destruct (List.filter _ labels) eqn:E; [|discriminate].
  intros [= <-]. induction labels as [|k l IH]; simpl; [constructor|].
  simpl in E. unfold Series.has in E at 1.
  destruct (s !! k) eqn:Hk; simpl in *; [|discriminate].
  constructor; auto.
Qed.

Lemma astype_float_Ret vs qs :
  Series.astype_float vs = Ret qs -> vs = map VNum qs.
Proof.
  revert qs. induction vs as [|v vs IH]; simpl; intros qs.
  - now intros [= <-].
  - destruct v; simpl; try discriminate.
    destruct (Series.astype_float vs); [|discriminate].
    intros [= <-]. simpl. f_equal. now apply IH.
Qed.

Lemma frame_Ret (s : Series) labels qs :
  Series.frame s labels = Ret qs ->
  forallb (is_num s) labels = true /\ qs = nums s labels.
Proof.
  unfold Series.frame. destruct (Series.select s labels) as [vs|] eqn:E; [|discriminate].
  intros H. apply astype_float_Ret in H. subst vs. apply select_Ret in E.
  revert qs E. induction labels as [|k l IH]; intros qs E.
  - destruct qs; [split; reflexivity|inversion E].
  - destruct qs as [|q qs]; [inversion E|]. simpl in E.
    apply Forall2_cons in E as [Hk Hl]. destruct (IH _ Hl) as [H1 H2].
    simpl. unfold is_num at 1, num_at at 1. rewrite Hk. simpl. split; [assumption|congruence].
Qed.

Lemma frame_Raise_missing (s : Series) labels :
  missing s labels <> [] -> Series.frame s labels = Raise (KeyError (missing s labels)).
Proof.
  intros H. unfold Series.frame, Series.select. fold (missing s labels).
  destruct (missing s labels); [congruence|reflexivity].
Qed.

(** ** One day *)

Ltac unfold_day :=
  unfold day_body, mbind, SE_bind, mret, SE_ret, frame, item, setitem, predict, lift;
  cbn -[Series.frame Series.getitem Num.max0 Num.clip01 Num.round Qmult Qplus Qminus insert lookup Qle_bool].

Lemma getitem_num (s : Series) k : is_num s k = true -> Series.getitem s k = Ret (VNum (num_at s k)).
Proof. intros H. unfold Series.getitem. now rewrite (is_num_lookup _ _ H). Qed.

Lemma num_at_insert_ne (s : Series) k v k' : k <> k' -> num_at (<[k := v]> s) k' = num_at s k'.
Proof. intros H. unfold num_at. now rewrite lookup_insert_ne. Qed.

Lemma is_num_insert_ne (s : Series) k v k' : k <> k' -> is_num (<[k := v]> s) k' = is_num s k'.
Proof. intros H. unfold is_num. now rewrite lookup_insert_ne. Qed.

Lemma day_body_complete self m d st :
  day_ready self m (cur st) = true ->
  day_body self m d st
  = (Ret (day_snapshot self m d (cur st), day_captured self m (cur st)), day_end self m st).
Proof.
  unfold day_ready. intros H.
  repeat (apply andb_prop in H as [H ?]).
  unfold_day.
  rewrite (frame_numeric _ _ H).
  rewrite (getitem_num (cur st) "dist_to_front_m") by assumption. cbn [Series.operand cur log].
  rewrite getitem_num by (rewrite is_num_insert_ne; done).
  cbn [Series.operand cur log].
  rewrite getitem_num by (rewrite !is_num_insert_ne; done).
  cbn [Series.operand cur log].
  rewrite !num_at_insert_ne by done.
  change (<["dist_to_front_m" := _]> _) with (Stage.momentum_update self m (cur st)).
  rewrite (frame_numeric _ _ H1).
  change (<["encirclement_score" := _]> _) with (Stage.day_state self m (cur st)).
  rewrite (frame_numeric _ _ H0).
  unfold day_end, Stage.day_calls. rewrite <- !app_assoc. reflexivity.
Qed.

(** Conversely, a day that completes has read numbers only. *)
Lemma day_body_Ret self m d st out st' :
  day_body self m d st = (Ret out, st') -> day_ready self m (cur st) = true.
Proof.
  unfold_day. unfold day_ready.
  destruct (Series.frame (cur st) (feats_A self)) as [inA|] eqn:EA; [|discriminate].
  apply frame_Ret in EA as [HA ->]. rewrite HA.
  unfold Series.getitem at 1.
  destruct (cur st !! "dist_to_front_m") as [[q0| |]|] eqn:E0; try discriminate.
  cbn [Series.operand cur log].
  unfold Series.getitem at 1. rewrite lookup_insert_ne by done.
  destruct (cur st !! "momentum_7d") as [[q1| |]|] eqn:E1; try discriminate.
  cbn [Series.operand cur log].
  unfold Series.getitem at 1. rewrite !lookup_insert_ne by done.
  destruct (cur st !! "momentum_30d") as [[q2| |]|] eqn:E2; try discriminate.
  cbn [Series.operand cur log].
  assert (q0 = num_at (cur st) "dist_to_front_m") as -> by (unfold num_at; now rewrite E0).
  assert (q1 = num_at (cur st) "momentum_7d") as -> by (unfold num_at; now rewrite E1).
  assert (q2 = num_at (cur st) "momentum_30d") as -> by (unfold num_at; now rewrite E2).
  change (<["dist_to_front_m" := _]> _) with (Stage.momentum_update self m (cur st)).
  destruct (Series.frame (Stage.momentum_update self m (cur st)) (feats_B self)) as [inB|] eqn:EB; [|discriminate].
  apply frame_Ret in EB as [HB ->]. rewrite HB.
  change (<["encirclement_score" := _]> _) with (Stage.day_state self m (cur st)).
  destruct (Series.frame (Stage.day_state self m (cur st)) (feats_C self)) as [inC|] eqn:EC; [|discriminate].
  apply frame_Ret in EC as [HC ->]. rewrite HC.
  intros _. unfold is_num. now rewrite E0, E1, E2.
Qed.

Lemma forallb_is_num_insert (s : Series) k q labels :
  forallb (is_num s) labels = true ->
  forallb (is_num (<[k := VNum q]> s)) labels = true.
Proof.
  rewrite !forallb_forall. intros H x Hx. apply is_num_insert. now apply H.
Qed.

(** A state in which every required cell is a number lets the day complete,
    and the day leaves such a state. *)
Lemma ready_day self m s :
  ready self s = true ->
  day_ready self m s = true /\ ready self (Stage.day_state self m s) = true.
Proof.
  unfold ready, required, day_ready. rewrite !forallb_app. cbn [forallb].
  intros H. repeat (apply andb_prop in H as [? H]).
  unfold Stage.day_state, Stage.encirclement_stage, Stage.momentum_update.
  split; repeat (apply andb_true_intro; split);
    repeat first [assumption | reflexivity | apply forallb_is_num_insert | apply is_num_insert].
Qed.

(** ** The loop *)

Lemma loop_ready self m days : forall h st,
  ready self (cur st) = true ->
  exists st', loop self m days h st = (Ret (h ++ history_from self m (cur st) days)%list, st').
Proof.
  induction days as [|d rest IH]; intros h st Hr.
  - exists st. cbn. now rewrite app_nil_r.
  - destruct (ready_day self m _ Hr) as [Hd Hn].
    cbn [loop history_from]. unfold mbind, SE_bind.
    rewrite (day_body_complete _ _ _ _ Hd).
    destruct (day_captured self m (cur st)).
    + eexists. reflexivity.
    + destruct (IH (h ++ [day_snapshot self m d (cur st)])%list (day_end self m st) Hn) as [st' E].
      exists st'. rewrite E. cbn [day_end cur]. now rewrite <- app_assoc.
Qed.

(** ** Looking a city up *)

#[local] Instance date_le_trans : Transitive date_le.
Proof. intros a b c. unfold date_le. lia. Qed.

#[local] Instance date_le_total : Total date_le.
Proof. intros a b. unfold date_le. lia. Qed.

(** The last row of a sorted frame is a row of the frame of latest date. *)
Lemma iloc_last_sorted (l : list Row) r :
  iloc_last (sort_values_date l) = Ret r ->
  r ∈ l /\ forall x, x ∈ l -> (date x <= date r)%Z.
Proof.
  unfold iloc_last, sort_values_date.
  destruct (last (merge_sort date_le l)) as [r'|] eqn:E; [|discriminate].
  intros [= ->]. apply last_Some in E as [l' E].
  pose proof (merge_sort_Permutation date_le l) as HP.
  pose proof (StronglySorted_merge_sort date_le l) as HS.
  rewrite E in HP, HS. split.
  - rewrite <- HP. apply elem_of_app. right. now apply list_elem_of_singleton.
  - intros x Hx. rewrite <- HP in Hx. apply elem_of_app in Hx as [Hx|Hx].
    + apply (StronglySorted_app_1_elem_of _ _ _ x r HS Hx).
      now apply list_elem_of_singleton.
    + apply list_elem_of_singleton in Hx. subst. lia.
Qed.

Lemma iloc_last_nonempty (l : list Row) :
  l <> [] -> exists r, iloc_last (sort_values_date l) = Ret r.
Proof.
  intros H. unfold iloc_last, sort_values_date.
  destruct (last (merge_sort date_le l)) as [r'|] eqn:E; [eauto|].
  apply last_None in E.
  pose proof (merge_sort_Permutation date_le l) as HP. rewrite E in HP.
  symmetry in HP. apply Permutation_nil_r in HP. contradiction.
Qed.

Lemma city_data_elem w city r :
  r ∈ city_data w city <-> r ∈ df w /\ name r = city.
Proof.
  unfold city_data. rewrite !list_elem_of_In, filter_In, String.eqb_eq. reflexivity.
Qed.

Lemma get_city_state_Ret city w cs w1 :
  get_city_state city w = (Ret cs, w1) ->
  exists r, r ∈ df w /\ name r = city
    /\ (forall x, x ∈ df w -> name x = city -> (date x <= date r)%Z)
    /\ cs = S (length (objects w)) /\ w1 = looked_up w r.
Proof.
  unfold get_city_state. fold (city_data w city).
  destruct (city_data w city) as [|r0 l0] eqn:E; [discriminate|].
  unfold mbind, SE_bind, lift, raise.
  destruct (iloc_last (sort_values_date (r0 :: l0))) as [r|] eqn:El; [|discriminate].
  apply iloc_last_sorted in El as [Hin Hmax]. rewrite <- E in Hin, Hmax.
  apply city_data_elem in Hin as [Hin Hname].
  unfold copy, alloc, obj. cbn [objects df trace].
  rewrite lookup_app_r by lia. rewrite Nat.sub_diag. cbn [lookup list_lookup default].
  rewrite length_app. cbn [length].
  intros [= <- <-]. exists r. repeat split; try assumption.
  - intros x Hx Hn. apply Hmax. now apply city_data_elem.
  - lia.
  - unfold looked_up. now rewrite <- app_assoc.
Qed.

Lemma get_city_state_found city w r0 :
  r0 ∈ df w -> name r0 = city ->
  exists cs w1, get_city_state city w = (Ret cs, w1).
Proof.
  intros Hin Hn. unfold get_city_state. fold (city_data w city).
  assert (r0 ∈ city_data w city) as H0 by now apply city_data_elem.
  destruct (city_data w city) as [|r1 l1] eqn:E; [now apply elem_of_nil in H0|].
  destruct (iloc_last_nonempty (r1 :: l1)) as [r Hr]; [discriminate|].
  unfold mbind, SE_bind, lift. rewrite Hr. unfold copy, alloc. eauto.
Qed.

Lemma get_city_state_absent city w :
  (forall r, r ∈ df w -> name r <> city) ->
  get_city_state city w = (Raise (ValueError ("City '" ++ city ++ "' not found.")), w).
Proof.
  intros H. unfold get_city_state. fold (city_data w city).
  destruct (city_data w city) as [|r1 l1] eqn:E; [reflexivity|].
  assert (r1 ∈ city_data w city) as H1 by (rewrite E; left).
  apply city_data_elem in H1 as [H1 H2]. now apply H in H1.
Qed.

Lemma looked_up_obj w r : obj (looked_up w r) (S (length (objects w))) = to_series r.
Proof.
  unfold obj, looked_up. cbn [objects]. rewrite lookup_app_r by lia.
  replace (S (length (objects w)) - length (objects w)) with 1 by lia. reflexivity.
Qed.

(** ** A run, from the anchor state on *)

Lemma on_object_nop w cs :
  cs < length (objects w) ->
  {| df := df w; objects := <[cs := obj w cs]> (objects w); trace := trace w |} = w.
Proof.
  intros H. destruct w as [d o t]. unfold obj. cbn [df objects trace] in *.
  f_equal. apply list_insert_id.
  destruct (lookup_lt_is_Some_2 o cs H) as [x Hx]. now rewrite Hx.
Qed.

Lemma run_from_anchor self city days scenario w cs w1 :
  get_city_state city w = (Ret cs, w1) ->
  run_simulation self city days scenario w =
    match Series.getitem (obj w1 cs) "is_captured" with
    | Raise e => (Raise e, w1)
    | Ret v =>
        if Series.eq1 v then (Ret None, w1)
        else
          let '(res, st) :=
            loop self (modifier_of scenario) (py_range 1 (days + 1)) []
              {| cur := obj w1 cs; log := trace w1 |} in
          (match res with Ret h => Ret (Some h) | Raise e => Raise e end,
           {| df := df w1; objects := <[cs := cur st]> (objects w1); trace := log st |})
    end.
Proof.
  intros H. unfold run_simulation, mbind, SE_bind. rewrite H.
  apply get_city_state_Ret in H as (r & _ & _ & _ & -> & ->).
  assert (S (length (objects w)) < length (objects (looked_up w r))) as Hlt
    by (unfold looked_up; cbn [objects]; rewrite length_app; cbn [length]; lia).
  pose proof (on_object_nop _ _ Hlt) as Hnop.
  unfold on_object at 1. unfold item, mret, SE_ret. cbn [cur log].
  destruct (Series.getitem (obj (looked_up w r) (S (length (objects w)))) "is_captured")
    as [v|e]; cbn [cur log]; rewrite Hnop; [|reflexivity].
  destruct (Series.eq1 v); [reflexivity|].
  unfold on_object. fold (modifier_of scenario).
  destruct (loop self (modifier_of scenario) (py_range 1 (days + 1)) [] _) as [[h|e] st];
    reflexivity.
Qed.

Lemma max0_Qmax x : (Num.max0 x == Qmax 0 x)%Q.
Proof.
  destruct (max0_spec x) as [[H ->]|[H ->]].
  - symmetry. now apply Q.max_l.
  - symmetry. apply Q.max_r. lra.
Qed.

(** What a completed day returned, and the state it left. *)
Lemma day_body_Ret_eq self m d st out st' :
  day_body self m d st = (Ret out, st') ->
  day_ready self m (cur st) = true
  /\ out = (day_snapshot self m d (cur st), day_captured self m (cur st))
  /\ st' = day_end self m st.
Proof.
  intros E. pose proof (day_body_Ret _ _ _ _ _ _ E) as Hd.
  rewrite (day_body_complete _ _ _ _ Hd) in E. injection E as <- <-. auto.
Qed.

Lemma loop_Ret_snapshots self m days : forall h st h' st',
  loop self m days h st = (Ret h', st') ->
  forall snap, snap ∈ h' -> snap ∈ h \/ exists d s, snap = day_snapshot self m d s.
Proof.
  induction days as [|d rest IH]; intros h st h' st'; cbn [loop].
  - intros [= <- <-] snap Hs. now left.
  - unfold mbind, SE_bind.
    destruct (day_body self m d st) as [[[sn cap]|e] st1] eqn:E; [|discriminate].
    apply day_body_Ret_eq in E as (_ & [= -> ->] & ->).
    destruct (day_captured self m (cur st)).
    + intros [= <- <-] snap [Hs|Hs]%elem_of_app; [now left|].
      apply list_elem_of_singleton in Hs. right. eauto.
    + intros E snap Hs. destruct (IH _ _ _ _ E snap Hs) as [[H|H]%elem_of_app|H]; auto.
      apply list_elem_of_singleton in H. right. eauto.
Qed.

Lemma run_Raise_lookup self city days scenario w e w1 :
  get_city_state city w = (Raise e, w1) ->
  run_simulation self city days scenario w = (Raise e, w1).
Proof. intros H. unfold run_simulation, mbind, SE_bind. now rewrite H. Qed.

(** A run that returns a history looked the city up, found it free, and
    ran the loop on the copy. *)
Lemma run_Ret_Some self city days scenario w h w' :
  run_simulation self city days scenario w = (Ret (Some h), w') ->
  exists cs w1 v st',
    get_city_state city w = (Ret cs, w1)
    /\ Series.getitem (obj w1 cs) "is_captured" = Ret v
    /\ Series.eq1 v = false
    /\ loop self (modifier_of scenario) (py_range 1 (days + 1)) []
         {| cur := obj w1 cs; log := trace w1 |} = (Ret h, st')
    /\ w' = {| df := df w1; objects := <[cs := cur st']> (objects w1); trace := log st' |}.
Proof.
  destruct (get_city_state city w) as [[cs|e] w1] eqn:E.
  - rewrite (run_from_anchor _ _ _ _ _ _ _ E).
    destruct (Series.getitem (obj w1 cs) "is_captured") as [v|] eqn:Eg; [|discriminate].
    destruct (Series.eq1 v) eqn:Ev; [discriminate|].
    destruct (loop _ _ _ _ _) as [[h0|] st'] eqn:El; [|discriminate].
    intros [= <- <-]. exists cs, w1, v, st'. repeat split; auto.
  - rewrite (run_Raise_lookup _ _ _ _ _ _ _ E). discriminate.
Qed.

Lemma modifiers_unknown label :
  label ∉ ["conservative"; "inertial"; "aggressive"] -> modifiers !! label = None.
Proof.
  rewrite !not_elem_of_cons. intros (? & ? & ? & _). unfold modifiers.
  rewrite !lookup_insert_ne by congruence. apply lookup_singleton_ne. congruence.
Qed.

(** ** The history of a run whose days all complete *)

Lemma day_captured_true self m s :
  day_captured self m s = true <-> (1 # 2 < Stage.day_probability self m s)%Q.
Proof.
  unfold day_captured. rewrite negb_true_iff.
  destruct (Qle_bool (Stage.day_probability self m s) (1 # 2)) eqn:E.
  - apply Qle_bool_iff in E. split; [discriminate|]. intros H. exfalso. lra.
  - split; [|reflexivity]. intros _.
    destruct (Qlt_le_dec (1 # 2) (Stage.day_probability self m s)) as [H|H]; [exact H|].
    apply Qle_bool_iff in H. congruence.
Qed.

Lemma day_captured_false self m s :
  day_captured self m s = false <-> (Stage.day_probability self m s <= 1 # 2)%Q.
Proof.
  unfold day_captured. rewrite negb_false_iff. apply Qle_bool_iff.
Qed.

Lemma state_after_S self m n s :
  Stage.state_after self m (S n) s
  = Stage.state_after self m n (Stage.day_state self m s).
Proof. unfold Stage.state_after. apply Nat.iter_succ_r. Qed.

(** The snapshot at position [i] is that of day [days !! i], taken from the
    state [i] days after [s]; every earlier day decided "not captured". *)
Lemma history_from_lookup self m days : forall s i snap,
  history_from self m s days !! i = Some snap ->
  exists d, days !! i = Some d
    /\ snap = day_snapshot self m d (Stage.state_after self m i s)
    /\ forall j, j < i -> day_captured self m (Stage.state_after self m j s) = false.
Proof.
  induction days as [|d rest IH]; intros s i snap; cbn [history_from]; [discriminate|].
  destruct i as [|i].
  - intros [= <-]. exists d. repeat split. intros j Hj. lia.
  - rewrite lookup_cons. destruct (day_captured self m s) eqn:Ec; [discriminate|].
    intros H. apply IH in H as (d' & Hd & -> & Hbefore).
    exists d'. split; [exact Hd|]. split; [now rewrite state_after_S|].
    intros [|j] Hj; [exact Ec|]. rewrite state_after_S. apply Hbefore. lia.
Qed.

Lemma history_from_length_free self m days : forall s,
  (forall j, j < length days -> day_captured self m (Stage.state_after self m j s) = false) ->
  length (history_from self m s days) = length days.
Proof.
  induction days as [|d rest IH]; intros s H; cbn [history_from length]; [reflexivity|].
  assert (day_captured self m s = false) as -> by (apply (H 0); cbn [length]; lia).
  f_equal. apply IH.
  intros j Hj. rewrite <- state_after_S. apply H. cbn [length]. lia.
Qed.

Lemma history_from_length_captured self m days : forall s k,
  k < length days ->
  (forall j, j < k -> day_captured self m (Stage.state_after self m j s) = false) ->
  day_captured self m (Stage.state_after self m k s) = true ->
  length (history_from self m s days) = S k.
Proof.
  induction days as [|d rest IH]; intros s k Hk Hfree Hcap; cbn [length] in Hk; [lia|].
  cbn [history_from length]. destruct k as [|k].
  - cbn in Hcap. now rewrite Hcap.
  - assert (day_captured self m s = false) as -> by (apply (Hfree 0); lia).
    f_equal. apply IH.
    + lia.
    + intros j Hj. rewrite <- state_after_S. apply Hfree. lia.
    + now rewrite <- state_after_S.
Qed.

Lemma py_range_length lo hi : length (py_range lo hi) = Z.to_nat (hi - lo).
Proof. unfold py_range. now rewrite length_map, length_seq. Qed.

Lemma py_range_lookup lo hi i d :
  py_range lo hi !! i = Some d -> d = (lo + Z.of_nat i)%Z.
Proof.
  unfold py_range. rewrite list_lookup_fmap.
  destruct (seq 0 (Z.to_nat (hi - lo)) !! i) as [n|] eqn:E; [|discriminate].
  apply lookup_seq in E as [-> _]. now intros [= <-].
Qed.

(** A run on a free anchor whose required cells are numbers returns the
    history of its days. *)
Lemma run_ready self city days scenario w cs w1 v :
  get_city_state city w = (Ret cs, w1) ->
  ready self (obj w1 cs) = true ->
  obj w1 cs !! "is_captured" = Some v ->
  Series.eq1 v = false ->
  exists w',
    run_simulation self city days scenario w
    = (Ret (Some (history_from self (modifier_of scenario) (obj w1 cs)
                    (py_range 1 (days + 1)))), w').
Proof.
  intros E Hr Hv Hf. rewrite (run_from_anchor _ _ _ _ _ _ _ E).
  unfold Series.getitem. rewrite Hv, Hf.
  destruct (loop_ready self (modifier_of scenario) (py_range 1 (days + 1)) []
              {| cur := obj w1 cs; log := trace w1 |} Hr) as [st' ->].
  cbn [cur app]. eauto.
Qed.

(** ** What the statements of the loop leave alone *)

Lemma keeps_refl st : keeps st st.
Proof. intros k _. reflexivity. Qed.

Lemma keeps_trans st1 st2 st3 : keeps st1 st2 -> keeps st2 st3 -> keeps st1 st3.
Proof. intros H1 H2 k Hk. now rewrite (H2 k Hk), (H1 k Hk). Qed.

Lemma preserving_bind {A B} (m : L A) (f : A -> L B) :
  preserving m -> (forall a, preserving (f a)) -> preserving (m ≫= f).
Proof.
  intros Hm Hf st. unfold mbind, SE_bind. specialize (Hm st).
  destruct (m st) as [[a|e] st1]; cbn [snd] in *; [|exact Hm].
  eapply keeps_trans; [exact Hm|apply Hf].
Qed.

Lemma preserving_ret {A} (a : A) : preserving (mret a : L A).
Proof. intros st. apply keeps_refl. Qed.

Lemma preserving_lift {A} (r : Result A) : preserving (lift r : L A).
Proof. intros st. apply keeps_refl. Qed.

Lemma preserving_item k : preserving (item k).
Proof. intros st. apply keeps_refl. Qed.

Lemma preserving_frame labels : preserving (frame labels).
Proof. intros st. apply keeps_refl. Qed.

Lemma preserving_predict {B} r (f : list Q -> B) x : preserving (predict r f x).
Proof. intros st k _. reflexivity. Qed.

Lemma preserving_setitem k v : k ∈ mutated -> preserving (setitem k v).
Proof.
  intros Hk st k' Hk'. cbn [setitem snd cur].
  apply lookup_insert_ne. intros ->. contradiction.
Qed.

Ltac preserving_step :=
  first [ apply preserving_ret | apply preserving_lift | apply preserving_item
        | apply preserving_frame | apply preserving_predict
        | apply preserving_setitem; unfold mutated; solve [repeat constructor]
        | apply preserving_bind; [|intros ?] ].

Lemma preserving_day_body self m d : preserving (day_body self m d).
Proof. unfold day_body. repeat (cbv zeta; preserving_step). Qed.

Lemma preserving_loop self m days : forall h, preserving (loop self m days h).
Proof.
  induction days as [|d rest IH]; intros h; cbn [loop].
  - apply preserving_ret.
  - apply preserving_bind; [apply preserving_day_body|].
    intros [snap cap]. destruct cap; [apply preserving_ret|apply IH].
Qed.

(** ** The result of the loop does not depend on the calls logged before *)

Lemma log_blind_bind {A B} (m : L A) (f : A -> L B) :
  log_blind m -> (forall a, log_blind (f a)) -> log_blind (m ≫= f).
Proof.
  intros Hm Hf st1 st2 E. unfold mbind, SE_bind. destruct (Hm st1 st2 E) as [H1 H2].
  destruct (m st1) as [[a1|e1] s1], (m st2) as [[a2|e2] s2]; cbn [fst snd] in *;
    try discriminate.
  - injection H1 as ->. now apply Hf.
  - injection H1 as ->. auto.
Qed.

Lemma log_blind_ret {A} (a : A) : log_blind (mret a : L A).
Proof. intros st1 st2 E. cbn. auto. Qed.

Lemma log_blind_lift {A} (r : Result A) : log_blind (lift r : L A).
Proof. intros st1 st2 E. cbn. auto. Qed.

Lemma log_blind_item k : log_blind (item k).
Proof. intros st1 st2 E. unfold item. cbn [fst snd]. now rewrite E. Qed.

Lemma log_blind_frame labels : log_blind (frame labels).
Proof. intros st1 st2 E. unfold frame. cbn [fst snd]. now rewrite E. Qed.

Lemma log_blind_predict {B} r (f : list Q -> B) x : log_blind (predict r f x).
Proof. intros st1 st2 E. unfold predict. cbn [fst snd cur]. auto. Qed.

Lemma log_blind_setitem k v : log_blind (setitem k v).
Proof. intros st1 st2 E. unfold setitem. cbn [fst snd cur]. now rewrite E. Qed.

Ltac log_blind_step :=
  first [ apply log_blind_ret | apply log_blind_lift | apply log_blind_item
        | apply log_blind_frame | apply log_blind_predict | apply log_blind_setitem
        | apply log_blind_bind; [|intros ?] ].

Lemma log_blind_day_body self m d : log_blind (day_body self m d).
Proof. unfold day_body. repeat (cbv zeta; log_blind_step). Qed.

Lemma log_blind_loop self m days : forall h, log_blind (loop self m days h).
Proof.
  induction days as [|d rest IH]; intros h; cbn [loop].
  - apply log_blind_ret.
  - apply log_blind_bind; [apply log_blind_day_body|].
    intros [snap cap]. destruct cap; [apply log_blind_ret|apply IH].
Qed.

(** ** The lookups of the small data frame *)

Lemma lookup_Kramatorsk :
  get_city_state "Kramatorsk" Demo.world
  = (Ret 1, looked_up Demo.world (Demo.row "Kramatorsk" 21 100 0)).
Proof. reflexivity. Qed.

Lemma lookup_Mariupol :
  get_city_state "Mariupol" Demo.world
  = (Ret 1, looked_up Demo.world (Demo.row "Mariupol" 21 0 1)).
Proof. reflexivity. Qed.

(** ** Two runs *)

(** A loop that returns has appended the history of its days. *)
Lemma loop_Ret_history self m days : forall h st h' st',
  loop self m days h st = (Ret h', st') ->
  h' = (h ++ history_from self m (cur st) days)%list.
Proof.
  induction days as [|d rest IH]; intros h st h' st'; cbn [loop history_from].
  - intros [= <- <-]. now rewrite app_nil_r.
  - unfold mbind, SE_bind.
    destruct (day_body self m d st) as [[[sn cap]|e] st1] eqn:E; [|discriminate].
    apply day_body_Ret_eq in E as (_ & [= -> ->] & ->).
    destruct (day_captured self m (cur st)).
    + now intros [= <- <-].
    + intros E. apply IH in E. subst h'. cbn [day_end cur]. now rewrite <- app_assoc.
Qed.

Lemma num_at_day_state_dist self m s :
  num_at (Stage.day_state self m s) "dist_to_front_m" = Stage.new_distance self m s.
Proof.
  unfold Stage.day_state, Stage.encirclement_stage, Stage.momentum_update, num_at.
  rewrite lookup_insert_ne by done. now rewrite lookup_insert_eq.
Qed.

(** With a front model that answers the same delta [p >= 0] whatever the
    row, a larger modifier never leaves the city farther from the front. *)
Lemma new_distance_order self ma mc p sa sc :
  (forall row, model_A_predict self row == p)%Q -> (0 <= p)%Q -> (mc <= ma)%Q ->
  (num_at sa "dist_to_front_m" <= num_at sc "dist_to_front_m")%Q ->
  (Stage.new_distance self ma sa <= Stage.new_distance self mc sc)%Q.
Proof.
  intros Hp Hp0 Hm Hd. unfold Stage.new_distance, Stage.adjusted_delta.
  apply max0_mono. rewrite !Hp.
  assert (p * mc <= p * ma)%Q by (rewrite !(Qmult_comm p); now apply Qmult_le_compat_r).
  lra.
Qed.

Lemma state_after_order self ma mc p :
  (forall row, model_A_predict self row == p)%Q -> (0 <= p)%Q -> (mc <= ma)%Q ->
  forall k sa sc,
    (num_at sa "dist_to_front_m" <= num_at sc "dist_to_front_m")%Q ->
    (num_at (Stage.state_after self ma k sa) "dist_to_front_m"
     <= num_at (Stage.state_after self mc k sc) "dist_to_front_m")%Q.
Proof.
  intros Hp Hp0 Hm. induction k as [|k IH]; intros sa sc Hd; [exact Hd|].
  change (Stage.state_after self ma (S k) sa)
    with (Stage.day_state self ma (Stage.state_after self ma k sa)).
  change (Stage.state_after self mc (S k) sc)
    with (Stage.day_state self mc (Stage.state_after self mc k sc)).
  rewrite !num_at_day_state_dist. apply (new_distance_order _ _ _ p); auto.
Qed.

(** The lookup, written out. *)
Lemma get_city_state_eq city w :
  get_city_state city w =
    match city_data w city with
    | [] => (Raise (ValueError ("City '" ++ city ++ "' not found.")), w)
    | l =>
        match iloc_last (sort_values_date l) with
        | Ret r => (Ret (S (length (objects w))), looked_up w r)
        | Raise e => (Raise e, w)
        end
    end.
Proof.
  unfold get_city_state. fold (city_data w city).
  destruct (city_data w city) as [|r0 l0]; [reflexivity|].
  unfold mbind, SE_bind, lift.
  destruct (iloc_last (sort_values_date (r0 :: l0))) as [r|e]; [|reflexivity].
  unfold copy, alloc, obj. cbn [objects df trace].
  rewrite lookup_app_r by lia. rewrite Nat.sub_diag. cbn [lookup list_lookup default].
  rewrite length_app. cbn [length]. unfold looked_up. rewrite <- app_assoc.
  repeat f_equal. lia.
Qed.

(** A run leaves the data frame as it was. *)
Lemma run_df self city days scenario w :
  df (snd (run_simulation self city days scenario w)) = df w.
Proof.
  destruct (get_city_state city w) as [[cs|e] w1] eqn:E.
  - rewrite (run_from_anchor _ _ _ _ _ _ _ E).
    apply get_city_state_Ret in E as (r & _ & _ & _ & _ & ->).
    destruct (Series.getitem _ _) as [v|]; [|reflexivity].
    destruct (Series.eq1 v); [reflexivity|].
    destruct (loop _ _ _ _ _) as [res st]. reflexivity.
  - rewrite (run_Raise_lookup _ _ _ _ _ _ _ E).
    rewrite get_city_state_eq in E.
    destruct (city_data w city); [now injection E as <- <-|].
    destruct (iloc_last _); [discriminate|]. now injection E as <- <-.
Qed.

(** The result of a run is determined by the data frame: neither the
    objects that exist nor the calls made before matter. *)
Lemma run_result_df self city days scenario w w0 :
  df w = df w0 ->
  fst (run_simulation self city days scenario w)
  = fst (run_simulation self city days scenario w0).
Proof.
  intros Hdf.
  assert (city_data w city = city_data w0 city) as Hc by (unfold city_data; now rewrite Hdf).
  pose proof (get_city_state_eq city w) as E. pose proof (get_city_state_eq city w0) as E0.
  rewrite <- Hc in E0.
  destruct (city_data w city) as [|r0 l0].
  { now rewrite (run_Raise_lookup _ _ _ _ _ _ _ E), (run_Raise_lookup _ _ _ _ _ _ _ E0). }
  destruct (iloc_last (sort_values_date (r0 :: l0))) as [r|e].
  2: { now rewrite (run_Raise_lookup _ _ _ _ _ _ _ E), (run_Raise_lookup _ _ _ _ _ _ _ E0). }
  rewrite (run_from_anchor _ _ _ _ _ _ _ E), (run_from_anchor _ _ _ _ _ _ _ E0).
  rewrite !looked_up_obj.
  destruct (Series.getitem (to_series r) "is_captured") as [v|]; [|reflexivity].
  destruct (Series.eq1 v); [reflexivity|].
  destruct (log_blind_loop self (modifier_of scenario) (py_range 1 (days + 1)) []
              {| cur := to_series r; log := trace (looked_up w r) |}
              {| cur := to_series r; log := trace (looked_up w0 r) |} eq_refl) as [H _].
  destruct (loop _ _ _ _ {| cur := to_series r; log := trace (looked_up w r) |}) as [res st].
  destruct (loop _ _ _ _ {| cur := to_series r; log := trace (looked_up w0 r) |}) as [res0 st0].
  cbn [fst] in *. now subst.
Qed.

(** ** Days that raise *)

Lemma day_body_raise_A self m d st :
  missing (cur st) (feats_A self) <> [] ->
  day_body self m d st = (Raise (KeyError (missing (cur st) (feats_A self))), st).
Proof.
  intros H. unfold_day. now rewrite (frame_Raise_missing _ _ H).
Qed.

Lemma day_body_raise_B self m d st :
  forallb (is_num (cur st)) (feats_A self) = true ->
  is_num (cur st) "dist_to_front_m" = true ->
  is_num (cur st) "momentum_7d" = true ->
  is_num (cur st) "momentum_30d" = true ->
  missing (Stage.momentum_update self m (cur st)) (feats_B self) <> [] ->
  exists st',
    day_body self m d st
    = (Raise (KeyError (missing (Stage.momentum_update self m (cur st)) (feats_B self))), st').
Proof.
  intros H H4 H3 H2 Hmiss. unfold_day.
  rewrite (frame_numeric _ _ H).
  rewrite (getitem_num (cur st) "dist_to_front_m") by assumption. cbn [Series.operand cur log].
  rewrite getitem_num by (rewrite is_num_insert_ne; done).
  cbn [Series.operand cur log].
  rewrite getitem_num by (rewrite !is_num_insert_ne; done).
  cbn [Series.operand cur log].
  rewrite !num_at_insert_ne by done.
  change (<["dist_to_front_m" := _]> _) with (Stage.momentum_update self m (cur st)).
  rewrite (frame_Raise_missing _ _ Hmiss). eauto.
Qed.

Lemma day_body_raise_C self m d st :
  forallb (is_num (cur st)) (feats_A self) = true ->
  is_num (cur st) "dist_to_front_m" = true ->
  is_num (cur st) "momentum_7d" = true ->
  is_num (cur st) "momentum_30d" = true ->
  forallb (is_num (Stage.momentum_update self m (cur st))) (feats_B self) = true ->
  missing (Stage.day_state self m (cur st)) (feats_C self) <> [] ->
  exists st',
    day_body self m d st
    = (Raise (KeyError (missing (Stage.day_state self m (cur st)) (feats_C self))), st').
Proof.
  intros H H4 H3 H2 H1 Hmiss. unfold_day.
  rewrite (frame_numeric _ _ H).
  rewrite (getitem_num (cur st) "dist_to_front_m") by assumption. cbn [Series.operand cur log].
  rewrite getitem_num by (rewrite is_num_insert_ne; done).
  cbn [Series.operand cur log].
  rewrite getitem_num by (rewrite !is_num_insert_ne; done).
  cbn [Series.operand cur log].
  rewrite !num_at_insert_ne by done.
  change (<["dist_to_front_m" := _]> _) with (Stage.momentum_update self m (cur st)).
  rewrite (frame_numeric _ _ H1).
  change (<["encirclement_score" := _]> _) with (Stage.day_state self m (cur st)).
  rewrite (frame_Raise_missing _ _ Hmiss). eauto.
Qed.

Lemma loop_raise self m d rest h st e st1 :
  day_body self m d st = (Raise e, st1) ->
  loop self m (d :: rest) h st = (Raise e, st1).
Proof. intros E. cbn [loop]. unfold mbind, SE_bind. now rewrite E. Qed.

Lemma missing_elem (s : Series) labels k :
  k ∈ missing s labels <-> k ∈ labels /\ s !! k = None.
Proof.
  unfold missing. rewrite !list_elem_of_In, filter_In. unfold Series.has.
  destruct (s !! k); cbn; intuition congruence.
Qed.

(** * The claims *)

(** C1.  Update order within a day.  From a state in which every cell the
    day reads is a number, the day completes, and: the front-dynamics
    predictor is given the state as it was; the four writes
    ([delta_dist_daily], [momentum_7d], [momentum_30d], [dist_to_front_m])
    use the values of that state and are all in the state [s1] whose
    features the encirclement predictor is given; the clipped encirclement
    score is in the state [s2] whose features the capture predictor is
    given, and [s2] is the state the day leaves. *)
Theorem state_update_order self m d st :
  ready self (cur st) = true ->
  let s := cur st in
  let adjusted_delta := (model_A_predict self (nums s (feats_A self)) * m)%Q in
  let new_dist := Num.max0 (num_at s "dist_to_front_m" - adjusted_delta) in
  exists out s1 s2 input_B,
    s1 !! "delta_dist_daily" = Some (VNum adjusted_delta)
    /\ s1 !! "momentum_7d"
       = Some (VNum (num_at s "momentum_7d" * (9 # 10) + adjusted_delta * (1 # 10)))
    /\ s1 !! "momentum_30d"
       = Some (VNum (num_at s "momentum_30d" * (95 # 100) + adjusted_delta * (5 # 100)))
    /\ s1 !! "dist_to_front_m" = Some (VNum new_dist)
    /\ (forall k, k ∉ ["delta_dist_daily"; "momentum_7d"; "momentum_30d"; "dist_to_front_m"] ->
        s1 !! k = s !! k)
    /\ input_B = nums s1 (feats_B self)
    /\ s2 = <["encirclement_score" := VNum (Num.clip01 (model_B_predict self input_B))]> s1
    /\ day_body self m d st
       = (Ret out,
          {| cur := s2;
             log := (log st
                     ++ [ {| role := FrontDynamics; input := nums s (feats_A self) |};
                          {| role := Encirclement; input := input_B |};
                          {| role := Capture; input := nums s2 (feats_C self) |} ])%list |}).
Proof.
  intros Hr s adjusted_delta new_dist.
  destruct (ready_day self m _ Hr) as [Hd _].
  exists (day_snapshot self m d s, day_captured self m s),
         (Stage.momentum_update self m s), (Stage.day_state self m s),
         (nums (Stage.momentum_update self m s) (feats_B self)).
  unfold Stage.momentum_update.
  repeat split.
  - now rewrite !lookup_insert_ne, lookup_insert_eq by done.
  - now rewrite !lookup_insert_ne, lookup_insert_eq by done.
  - now rewrite !lookup_insert_ne, lookup_insert_eq by done.
  - now rewrite lookup_insert_eq.
  - intros k Hk. rewrite !not_elem_of_cons in Hk. destruct Hk as (? & ? & ? & ? & _).
    now rewrite !lookup_insert_ne by done.
  - apply (day_body_complete _ _ _ _ Hd).
Qed.

Lemma state_update_order_witness :
  exists out st',
    day_body (Demo.stub 10 (17 # 10) (1 # 10)) (3 # 2) 1 (Demo.state 100) = (Ret out, st')
    /\ cur st' !! "dist_to_front_m" = Some (VNum (Num.max0 (100 - 10 * (3 # 2)))).
Proof.
  destruct (state_update_order (Demo.stub 10 (17 # 10) (1 # 10)) (3 # 2) 1 (Demo.state 100))
    as (out & s1 & s2 & inB & _ & _ & _ & Hdist & _ & _ & -> & E).
  - vm_compute. reflexivity.
  - eexists _, _. split; [exact E|]. cbn [cur].
    rewrite lookup_insert_ne by done. exact Hdist.
Defined.

(** C2, as amended.  On every day that completes, the new distance is
    [max(0, current - predicted_delta * modifier)]; it is never negative;
    it does not exceed a current distance that is not negative when the
    predicted delta is at least 0 and the modifier is positive; and from a
    current distance of 0 it is 0 when the adjusted delta is not negative.
    The snapshot holds the new distance rounded to a whole number. *)
Theorem new_distance_clamped self m d st out st' :
  day_body self m d st = (Ret out, st') ->
  let current := num_at (cur st) "dist_to_front_m" in
  let pred_delta := model_A_predict self (nums (cur st) (feats_A self)) in
  let new_dist := num_at (cur st') "dist_to_front_m" in
  (cur st !! "dist_to_front_m" = Some (VNum current)
   /\ cur st' !! "dist_to_front_m" = Some (VNum new_dist)
   /\ new_dist == Qmax 0 (current - pred_delta * m)
   /\ 0 <= new_dist
   /\ (0 <= pred_delta -> 0 < m -> 0 <= current -> new_dist <= current)
   /\ (current == 0 -> 0 <= pred_delta * m -> new_dist == 0)
   /\ dist_to_front (fst out) = Num.round new_dist 0)%Q.
Proof.
  intros E. apply day_body_Ret_eq in E as (Hd & -> & ->).
  unfold day_ready in Hd. repeat (apply andb_prop in Hd as [Hd ?]).
  cbn zeta. cbn [day_end cur fst day_snapshot dist_to_front].
  assert (num_at (Stage.day_state self m (cur st)) "dist_to_front_m"
          = Num.max0 (num_at (cur st) "dist_to_front_m"
                      - model_A_predict self (nums (cur st) (feats_A self)) * m)) as Hn.
  { unfold Stage.day_state, Stage.encirclement_stage, Stage.momentum_update, num_at.
    rewrite lookup_insert_ne by done. now rewrite lookup_insert_eq. }
  assert (Stage.day_state self m (cur st) !! "dist_to_front_m"
          = Some (VNum (num_at (Stage.day_state self m (cur st)) "dist_to_front_m"))) as Hl.
  { apply is_num_lookup. unfold Stage.day_state, Stage.encirclement_stage, Stage.momentum_update.
    rewrite is_num_insert_ne by done. apply is_num_insert_eq. }
  split; [now apply is_num_lookup|]. split; [exact Hl|].
  rewrite Hn.
  set (x := (num_at (cur st) "dist_to_front_m"
             - model_A_predict self (nums (cur st) (feats_A self)) * m)%Q).
  repeat split.
  - apply max0_Qmax.
  - apply max0_nonneg.
  - intros Hp Hm Hc. assert (0 <= model_A_predict self (nums (cur st) (feats_A self)) * m)%Q
      by (apply Qmult_le_0_compat; lra).
    destruct (max0_spec x) as [[? ->]|[? ->]]; subst x; lra.
  - intros Hc Ha. destruct (max0_spec x) as [[? ->]|[? ->]]; subst x; lra.
Qed.

Lemma new_distance_clamped_witness :
  (num_at (cur (snd (day_body (Demo.stub 10 0 0) (3 # 2) 1 (Demo.state 100))))
     "dist_to_front_m" <= 100)%Q.
Proof.
  destruct (day_body (Demo.stub 10 0 0) (3 # 2) 1 (Demo.state 100)) as [[out|e] st'] eqn:E.
  - pose proof (new_distance_clamped _ _ _ _ _ _ E) as (_ & _ & _ & _ & H & _).
    cbn [snd]. apply H; vm_compute; congruence.
  - vm_compute in E. discriminate E.
Defined.

(** C2 as stated fails on the code: from a current distance of 0 a negative
    predicted delta (the front withdraws 5 m) gives a new distance of 5, not
    0; and from a negative current distance a non-negative delta gives 0,
    which is more than the current distance. *)
Lemma clamp_zero_not_kept_counterexample :
  (returned (fst (day_body (Demo.stub (-5) 0 0) 1 1 (Demo.state 0))) = true
   /\ num_at (cur (Demo.state 0)) "dist_to_front_m" == 0
   /\ num_at (cur (snd (day_body (Demo.stub (-5) 0 0) 1 1 (Demo.state 0)))) "dist_to_front_m" == 5
   /\ ~ 5 == 0)%Q
  /\ (returned (fst (day_body (Demo.stub 1 0 0) 1 1 (Demo.state (-3)))) = true
      /\ num_at (cur (Demo.state (-3))) "dist_to_front_m" == -3
      /\ num_at (cur (snd (day_body (Demo.stub 1 0 0) 1 1 (Demo.state (-3))))) "dist_to_front_m" == 0
      /\ ~ 0 <= -3)%Q.
Proof.
  repeat split; try (vm_compute; reflexivity); vm_compute; congruence.
Qed.

(** C4, as amended.  Take a returned history and its anchor; the snapshot at
    position [i] is that of day [i + 1], which starts in the state [s]
    reached after [i] days.  Its encirclement score is the answer of the
    encirclement predictor on that day's updated state, clipped and rounded
    to three decimals: it lies in [0,1] whatever the predictor answered.
    Its capture probability is the positive-class probability [p] the
    capture predictor gives on that day's fully updated state, rounded to
    three decimals and not clipped: it lies in [0,1] when [p] does, and is
    at least 1 when [p] exceeds 1. *)
Theorem snapshot_score_bounds self city days scenario w h w' :
  run_simulation self city days scenario w = (Ret (Some h), w') ->
  exists cs w1,
    get_city_state city w = (Ret cs, w1)
    /\ forall i snap, h !! i = Some snap ->
         let m := modifier_of scenario in
         let s := Stage.state_after self m i (obj w1 cs) in
         let s1 := Stage.momentum_update self m s in
         let s2 := Stage.encirclement_stage self s1 in
         let raw := model_B_predict self (nums s1 (feats_B self)) in
         let p := snd (model_C_predict_proba self (nums s2 (feats_C self))) in
         (encirclement snap = Num.round (Num.clip01 raw) 3
          /\ 0 <= encirclement snap <= 1
          /\ prob_capture snap = Num.round p 3
          /\ (0 <= p <= 1 -> 0 <= prob_capture snap <= 1)
          /\ (1 < p -> 1 <= prob_capture snap))%Q.
Proof.
  intros E.
  apply run_Ret_Some in E as (cs & w1 & v & st' & Eg & _ & _ & El & _).
  exists cs, w1. split; [exact Eg|].
  apply loop_Ret_history in El. cbn [cur app] in El. subst h.
  intros i snap Hi. apply history_from_lookup in Hi as (d & _ & -> & _).
  cbn zeta. cbn [day_snapshot encirclement prob_capture].
  split; [reflexivity|]. split; [apply round_unit, clip01_bounds|].
  split; [reflexivity|]. split.
  - intros Hp. apply round_unit, Hp.
  - intros Hp. apply Qle_trans with (Num.round 1 3); [vm_compute; congruence|].
    apply round_mono. apply Qlt_le_weak, Hp.
Qed.

Lemma snapshot_score_bounds_witness :
  Forall (fun snap => 0 <= encirclement snap <= 1)%Q
    (match fst (run_simulation (Demo.stub 10 (17 # 10) (1 # 10)) "Kramatorsk" 3
                  "inertial" Demo.world) with
     | Ret (Some h) => h
     | _ => []
     end).
Proof.
  destruct (run_simulation (Demo.stub 10 (17 # 10) (1 # 10)) "Kramatorsk" 3
              "inertial" Demo.world) as [[[h|]|e] w'] eqn:E;
    cbn [fst]; try constructor.
  destruct (snapshot_score_bounds _ _ _ _ _ _ _ E) as (cs & w1 & _ & H).
  apply Forall_forall. intros snap [i Hi]%list_elem_of_lookup.
  apply (H i snap Hi).
Defined.

(** C4 as stated fails on the code: a stub capture predictor that answers
    1.7 puts 1.7 into the snapshot. *)
Lemma capture_probability_unclipped_counterexample :
  exists snap,
    fst (run_simulation (Demo.stub 10 (17 # 10) (17 # 10)) "Kramatorsk" 3 "inertial"
           Demo.world)
    = Ret (Some [snap])
    /\ (prob_capture snap == 17 # 10)%Q
    /\ ~ (prob_capture snap <= 1)%Q.
Proof.
  eexists. split; [vm_compute; reflexivity|]. split; vm_compute; congruence.
Qed.

(** C5.  When the anchor's [is_captured] is 1 the run returns [None], the
    "already occupied" outcome: no history, no predictor call, the data
    frame as it was.  A run of zero days on a free city returns the empty
    history, which is another value. *)
Theorem already_occupied self city days scenario w cs w1 v :
  get_city_state city w = (Ret cs, w1) ->
  obj w1 cs !! "is_captured" = Some v ->
  (Series.eq1 v = true ->
   run_simulation self city days scenario w = (Ret None, w1)
   /\ trace w1 = trace w /\ df w1 = df w)
  /\ (Series.eq1 v = false -> (days <= 0)%Z ->
      run_simulation self city days scenario w = (Ret (Some []), w1))
  /\ Ret (A := option (list Snapshot)) None <> Ret (Some []).
Proof.
  intros E Hv. rewrite (run_from_anchor _ _ _ _ _ _ _ E).
  unfold Series.getitem. rewrite Hv.
  pose proof (get_city_state_Ret _ _ _ _ E) as (r & _ & _ & _ & Hcs & ->).
  split; [|split].
  - intros ->. auto.
  - intros -> Hd. unfold py_range. replace (Z.to_nat (days + 1 - 1)) with 0 by lia.
    cbn [seq map loop mret SE_ret cur log].
    f_equal. apply on_object_nop. subst cs. unfold looked_up. cbn [objects].
    rewrite length_app. cbn [length]. lia.
  - discriminate.
Qed.

Lemma already_occupied_witness :
  fst (run_simulation (Demo.stub 10 0 0) "Mariupol" 60 "inertial" Demo.world) = Ret None
  /\ trace (snd (run_simulation (Demo.stub 10 0 0) "Mariupol" 60 "inertial" Demo.world)) = [].
Proof.
  assert (obj (looked_up Demo.world (Demo.row "Mariupol" 21 0 1)) 1 !! "is_captured"
          = Some (VNum 1)) as Hv by (vm_compute; reflexivity).
  destruct (already_occupied (Demo.stub 10 0 0) "Mariupol" 60 "inertial" _ _ _ _
              lookup_Mariupol Hv) as [H _].
  destruct (H eq_refl) as (-> & Ht & _). cbn [fst snd]. now rewrite Ht.
Defined.

(** C8.  The scenario table gives 0.5 for [conservative], 1.0 for
    [inertial] and 1.5 for [aggressive]; a label that is not in the table
    gets 1.0 without an error, and a run under such a label is the run
    under [inertial]: same result and same final world.  The modifier of
    the label is the one the run applies: on a free anchor whose required
    cells are numbers, a run of at least one day returns a history in which
    every snapshot records the prediction of its day times that modifier
    (0.5 for [conservative], 1.5 for [aggressive], 1.0 for any other
    label), and the distance that this adjusted delta leaves. *)
Theorem scenario_lookup :
  (modifier_of "conservative" = 1 # 2
   /\ modifier_of "inertial" = 1
   /\ modifier_of "aggressive" = 3 # 2)%Q
  /\ (forall label,
        label ∉ ["conservative"; "inertial"; "aggressive"] ->
        modifier_of label = 1%Q
        /\ forall self city days w,
            run_simulation self city days label w
            = run_simulation self city days "inertial" w)
  /\ (forall self city days label w cs w1 v,
        get_city_state city w = (Ret cs, w1) ->
        ready self (obj w1 cs) = true ->
        obj w1 cs !! "is_captured" = Some v ->
        Series.eq1 v = false ->
        (1 <= days)%Z ->
        let q := if decide (label = "conservative") then (1 # 2)%Q
                 else if decide (label = "aggressive") then (3 # 2)%Q
                 else 1%Q in
        exists h w',
          run_simulation self city days label w = (Ret (Some h), w')
          /\ 1 <= length h
          /\ forall i snap, h !! i = Some snap ->
               let s := Stage.state_after self q i (obj w1 cs) in
               let adjusted_delta := (model_A_predict self (nums s (feats_A self)) * q)%Q in
               delta_real snap = Num.round adjusted_delta 1
               /\ dist_to_front snap
                  = Num.round (Num.max0 (num_at s "dist_to_front_m" - adjusted_delta)) 0).
Proof.
  split; [repeat split; vm_compute; reflexivity|]. split.
  - intros label Hl. pose proof (modifiers_unknown _ Hl) as Hn.
    split.
    + unfold modifier_of. now rewrite Hn.
    + intros self city days w. unfold run_simulation. rewrite Hn.
      replace (modifiers !! "inertial") with (Some 1%Q) by (vm_compute; reflexivity).
      reflexivity.
  - intros self city days label w cs w1 v Eg Hr Hv Hf Hdays q.
    assert (modifier_of label = q) as Hq.
    { subst q. destruct (decide (label = "conservative")) as [->|Hc]; [reflexivity|].
      destruct (decide (label = "aggressive")) as [->|Ha]; [reflexivity|].
      destruct (decide (label = "inertial")) as [->|Hi]; [reflexivity|].
      unfold modifier_of. rewrite modifiers_unknown; [reflexivity|].
      rewrite !not_elem_of_cons. repeat split; auto. apply not_elem_of_nil. }
    destruct (run_ready self city days label _ _ _ _ Eg Hr Hv Hf) as [w' Erun].
    rewrite Hq in Erun.
    exists (history_from self q (obj w1 cs) (py_range 1 (days + 1))), w'.
    split; [exact Erun|]. split.
    + unfold py_range. replace (Z.to_nat (days + 1 - 1)) with (S (Z.to_nat (days - 1))) by lia.
      cbn [seq map history_from length]. lia.
    + intros i snap Hi. apply history_from_lookup in Hi as (d & _ & -> & _).
      cbn zeta. cbn [day_snapshot delta_real dist_to_front]. split; reflexivity.
Qed.

Lemma scenario_lookup_witness :
  (modifier_of "blitz" = 1%Q
   /\ run_simulation (Demo.stub 10 (1 # 2) (1 # 10)) "Kramatorsk" 5 "blitz" Demo.world
      = run_simulation (Demo.stub 10 (1 # 2) (1 # 10)) "Kramatorsk" 5 "inertial" Demo.world)
  /\ exists h w' first,
       run_simulation (Demo.stub 10 (1 # 2) (1 # 10)) "Kramatorsk" 5 "conservative" Demo.world
       = (Ret (Some h), w')
       /\ h !! 0 = Some first
       /\ delta_real first = Num.round (10 * (1 # 2)) 1.
Proof.
  destruct scenario_lookup as (_ & H & Hrun). split.
  - destruct (H "blitz") as [Hm Hr].
    + rewrite !not_elem_of_cons. repeat split; try discriminate. apply not_elem_of_nil.
    + split; [exact Hm|apply Hr].
  - destruct (Hrun (Demo.stub 10 (1 # 2) (1 # 10)) "Kramatorsk" 5%Z "conservative"
                Demo.world _ _ (VNum 0) lookup_Kramatorsk
                ltac:(vm_compute; reflexivity) ltac:(vm_compute; reflexivity)
                eq_refl ltac:(lia)) as (h & w' & Er & Hl & Hs).
    destruct h as [|first rest]; [cbn [length] in Hl; lia|].
    exists (first :: rest), w', first. split; [exact Er|]. split; [reflexivity|].
    apply (Hs 0 first eq_refl).
Defined.

(** C10.  Looking a city up raises the "not found" error, and leaves the
    world as it was, when the data frame has no record of that name; a run
    for such a city raises the same error before it calls any predictor.
    When the frame has a record of that name the lookup returns a copy of a
    record of that name whose date is the latest among them. *)
Theorem latest_city_state city w :
  ((forall r, r ∈ df w -> name r <> city) ->
   get_city_state city w
   = (Raise (ValueError ("City '" ++ city ++ "' not found.")), w)
   /\ forall self days scenario,
       run_simulation self city days scenario w
       = (Raise (ValueError ("City '" ++ city ++ "' not found.")), w))
  /\ (forall r0, r0 ∈ df w -> name r0 = city ->
      exists cs w1 r,
        get_city_state city w = (Ret cs, w1)
        /\ obj w1 cs = to_series r
        /\ r ∈ df w /\ name r = city
        /\ (forall x, x ∈ df w -> name x = city -> (date x <= date r)%Z)
        /\ df w1 = df w /\ trace w1 = trace w).
Proof.
  split.
  - intros H. pose proof (get_city_state_absent _ _ H) as E. split; [exact E|].
    intros self days scenario. now apply run_Raise_lookup.
  - intros r0 Hin Hn. destruct (get_city_state_found _ _ _ Hin Hn) as (cs & w1 & E).
    pose proof (get_city_state_Ret _ _ _ _ E) as (r & Hr & Hname & Hmax & -> & ->).
    exists (S (length (objects w))), (looked_up w r), r.
    repeat split; auto. apply looked_up_obj.
Qed.

Lemma latest_city_state_witness :
  fst (get_city_state "Pokrovsk" Demo.world)
  = Raise (ValueError "City 'Pokrovsk' not found.")
  /\ exists cs w1 r,
       get_city_state "Kramatorsk" Demo.world = (Ret cs, w1)
       /\ obj w1 cs = to_series r /\ date r = 21%Z.
Proof.
  destruct (latest_city_state "Pokrovsk" Demo.world) as [H1 _].
  destruct (latest_city_state "Kramatorsk" Demo.world) as [_ H2].
  split.
  - destruct H1 as [-> _]; [|reflexivity].
    intros r Hr. cbn [Demo.world Demo.frame_of df] in Hr.
    rewrite !elem_of_cons in Hr.
    destruct Hr as [->|[->|[->|[->|[->|Hr]]]]]; try discriminate.
    now apply elem_of_nil in Hr.
  - destruct (H2 (Demo.row "Kramatorsk" 19 120 0)) as (cs & w1 & r & E & Ho & Hr & Hn & Hmax & _).
    + left.
    + reflexivity.
    + exists cs, w1, r. repeat split; try assumption.
      assert (Demo.row "Kramatorsk" 21 100 0 ∈ df Demo.world) as H21 by (right; left).
      specialize (Hmax _ H21 eq_refl). cbn [Demo.row date] in Hmax.
      cbn [Demo.world Demo.frame_of df] in Hr. rewrite !elem_of_cons in Hr.
      destruct Hr as [->|[->|[->|[->|[->|Hr]]]]]; cbn [Demo.row date name] in *;
        try reflexivity; try lia; try discriminate.
      now apply elem_of_nil in Hr.
Defined.

(** C3.  Take a run of horizon [days >= 1] on an anchor that is not captured
    and whose required cells are numbers; [Stage.probability_on n] is the
    capture probability computed on day [n + 1].  If the probability first
    exceeds 0.5 on day [k0 + 1 <= days], the run returns exactly [k0 + 1]
    snapshots, for the days 1 to [k0 + 1] in order and none for a later day,
    the last one OCCUPIED and the others FREE.  If it never exceeds 0.5 within the horizon, the
    run returns exactly [days] snapshots, for the days 1 to [days], all
    FREE. *)
Theorem termination_exactness self city days scenario w cs w1 v :
  get_city_state city w = (Ret cs, w1) ->
  let anchor := obj w1 cs in
  let m := modifier_of scenario in
  ready self anchor = true ->
  anchor !! "is_captured" = Some v ->
  Series.eq1 v = false ->
  (1 <= days)%Z ->
  (forall k0 : nat,
     (Z.of_nat (S k0) <= days)%Z ->
     (forall j, j < k0 -> (Stage.probability_on self m j anchor <= 1 # 2)%Q) ->
     (1 # 2 < Stage.probability_on self m k0 anchor)%Q ->
     exists h w',
       run_simulation self city days scenario w = (Ret (Some h), w')
       /\ length h = S k0
       /\ (forall i snap, h !! i = Some snap ->
            day snap = Z.of_nat (S i)
            /\ status snap = if decide (i = k0) then OCCUPIED else FREE)
       /\ (forall snap, snap ∈ h -> (day snap <= Z.of_nat (S k0))%Z))
  /\ ((forall j, (Z.of_nat (S j) <= days)%Z ->
         (Stage.probability_on self m j anchor <= 1 # 2)%Q) ->
      exists h w',
        run_simulation self city days scenario w = (Ret (Some h), w')
        /\ length h = Z.to_nat days
        /\ forall i snap, h !! i = Some snap ->
             day snap = Z.of_nat (S i) /\ status snap = FREE).
Proof.
  intros E anchor m Hr Hv Hf Hdays.
  destruct (run_ready self city days scenario _ _ _ _ E Hr Hv Hf) as [w' Erun].
  fold anchor in Erun. fold m in Erun.
  assert (length (py_range 1 (days + 1)) = Z.to_nat days) as Hlen
    by (rewrite py_range_length; f_equal; lia).
  split.
  - intros k0 Hk Hbefore Hcap.
    exists (history_from self m anchor (py_range 1 (days + 1))), w'.
    assert (length (history_from self m anchor (py_range 1 (days + 1))) = S k0) as Hk0.
    { apply history_from_length_captured.
      - rewrite Hlen. lia.
      - intros j Hj. apply day_captured_false, Hbefore, Hj.
      - apply day_captured_true, Hcap. }
    split; [exact Erun|]. split; [exact Hk0|]. split.
    + intros i snap Hi.
      apply history_from_lookup in Hi as (d & Hd & -> & Hfree).
      apply py_range_lookup in Hd as ->. cbn [day_snapshot day status].
      split; [lia|]. destruct (decide (i = k0)) as [->|Hne].
      * assert (day_captured self m (Stage.state_after self m k0 anchor) = true) as ->
          by (apply day_captured_true; exact Hcap).
        reflexivity.
      * destruct (day_captured self m (Stage.state_after self m i anchor)) eqn:Ei;
          [|reflexivity].
        exfalso. destruct (Nat.lt_total i k0) as [Hlt|[Heq|Hgt]]; [|contradiction|].
        -- apply day_captured_true in Ei. specialize (Hbefore i Hlt).
           unfold Stage.probability_on in Hbefore. lra.
        -- specialize (Hfree k0 Hgt). apply day_captured_false in Hfree.
           unfold Stage.probability_on in Hcap. lra.
    + intros snap [i Hi]%list_elem_of_lookup.
      pose proof (lookup_lt_Some _ _ _ Hi) as Hlt. rewrite Hk0 in Hlt.
      apply history_from_lookup in Hi as (d & Hd & -> & _).
      apply py_range_lookup in Hd as ->. cbn [day_snapshot day]. lia.
  - intros Hnever.
    assert (forall j, j < length (py_range 1 (days + 1)) ->
              day_captured self m (Stage.state_after self m j anchor) = false) as Hall.
    { intros j Hj. apply day_captured_false, Hnever. rewrite Hlen in Hj. lia. }
    exists (history_from self m anchor (py_range 1 (days + 1))), w'.
    split; [exact Erun|]. split.
    + now rewrite history_from_length_free.
    + intros i snap Hi.
      pose proof (lookup_lt_Some _ _ _ Hi) as Hlt.
      rewrite history_from_length_free in Hlt by exact Hall.
      apply history_from_lookup in Hi as (d & Hd & -> & _).
      apply py_range_lookup in Hd as ->. cbn [day_snapshot day status].
      split; [lia|]. now rewrite (Hall i Hlt).
Qed.

Lemma termination_exactness_witness :
  (exists h w',
     run_simulation (Demo.stub_near 10 0 80) "Kramatorsk" 5 "inertial" Demo.world
     = (Ret (Some h), w') /\ length h = 2)
  /\ (exists h w',
        run_simulation (Demo.stub 10 0 (1 # 10)) "Kramatorsk" 3 "inertial" Demo.world
        = (Ret (Some h), w') /\ length h = 3).
Proof.
  pose proof lookup_Kramatorsk as E.
  split.
  - destruct (termination_exactness (Demo.stub_near 10 0 80) "Kramatorsk" 5 "inertial"
                _ _ _ (VNum 0) E) as [H _].
    + vm_compute. reflexivity.
    + vm_compute. reflexivity.
    + reflexivity.
    + lia.
    + destruct (H 1) as (h & w' & Er & Hl & _).
      * lia.
      * intros j Hj. assert (j = 0) as -> by lia. vm_compute. congruence.
      * vm_compute. reflexivity.
      * exists h, w'. split; assumption.
  - destruct (termination_exactness (Demo.stub 10 0 (1 # 10)) "Kramatorsk" 3 "inertial"
                _ _ _ (VNum 0) E) as [_ H].
    + vm_compute. reflexivity.
    + vm_compute. reflexivity.
    + reflexivity.
    + lia.
    + destruct H as (h & w' & Er & Hl & _).
      * intros j Hj. unfold Stage.probability_on, Stage.day_probability,
          Stage.capture_probability. cbn. vm_compute. congruence.
      * exists h, w'. split; assumption.
Defined.

(** C6.  The labels the loop writes are [delta_dist_daily], [momentum_7d],
    [momentum_30d], [dist_to_front_m] and [encirclement_score].  Whatever a
    day does, and however a run ends, every other cell of the working copy
    holds what the anchor held; among them [pct_occupied] and [is_captured],
    which stays as it was also when the last snapshot says OCCUPIED.  The
    data frame is as it was. *)
Theorem loop_writes_five_labels self city days scenario w cs w1 res w' :
  get_city_state city w = (Ret cs, w1) ->
  run_simulation self city days scenario w = (res, w') ->
  (forall m d st k, k ∉ mutated -> cur (snd (day_body self m d st)) !! k = cur st !! k)
  /\ (forall k, k ∉ mutated -> obj w' cs !! k = obj w1 cs !! k)
  /\ obj w' cs !! "is_captured" = obj w1 cs !! "is_captured"
  /\ obj w' cs !! "pct_occupied" = obj w1 cs !! "pct_occupied"
  /\ df w' = df w.
Proof.
  intros E Er.
  assert (forall k, k ∉ mutated -> obj w' cs !! k = obj w1 cs !! k) as Hframe.
  { rewrite (run_from_anchor _ _ _ _ _ _ _ E) in Er.
    pose proof (get_city_state_Ret _ _ _ _ E) as (r & _ & _ & _ & Hcs & Hw1).
    assert (cs < length (objects w1)) as Hlt
      by (subst; unfold looked_up; cbn [objects]; rewrite length_app; cbn [length]; lia).
    destruct (Series.getitem (obj w1 cs) "is_captured") as [v|e];
      [|injection Er as <- <-; reflexivity].
    destruct (Series.eq1 v); [injection Er as <- <-; reflexivity|].
    pose proof (preserving_loop self (modifier_of scenario) (py_range 1 (days + 1)) []
                  {| cur := obj w1 cs; log := trace w1 |}) as Hk.
    destruct (loop _ _ _ _ _) as [res0 st]. injection Er as <- <-.
    intros k Hnk. specialize (Hk k Hnk). cbn [snd cur] in Hk.
    unfold obj at 1. cbn [objects]. rewrite list_lookup_insert_eq by exact Hlt.
    exact Hk. }
  split; [|split; [exact Hframe|split; [|split]]].
  - intros m d st k Hk. apply (preserving_day_body self m d st k Hk).
  - apply Hframe. unfold mutated. rewrite !not_elem_of_cons.
    repeat split; try discriminate. apply not_elem_of_nil.
  - apply Hframe. unfold mutated. rewrite !not_elem_of_cons.
    repeat split; try discriminate. apply not_elem_of_nil.
  - rewrite (run_from_anchor _ _ _ _ _ _ _ E) in Er.
    pose proof (get_city_state_Ret _ _ _ _ E) as (r & _ & _ & _ & _ & Hw1).
    assert (df w1 = df w) as Hdf by (subst; reflexivity).
    destruct (Series.getitem (obj w1 cs) "is_captured") as [v|e];
      [|injection Er as <- <-; exact Hdf].
    destruct (Series.eq1 v); [injection Er as <- <-; exact Hdf|].
    destruct (loop _ _ _ _ _) as [res0 st]. injection Er as <- <-. exact Hdf.
Qed.

Lemma loop_writes_five_labels_witness :
  exists snap1 snap2,
    fst (run_simulation (Demo.stub_near 10 0 80) "Kramatorsk" 5 "inertial" Demo.world)
    = Ret (Some [snap1; snap2])
    /\ status snap2 = OCCUPIED
    /\ obj (snd (run_simulation (Demo.stub_near 10 0 80) "Kramatorsk" 5 "inertial"
                   Demo.world)) 1 !! "is_captured"
       = Some (VNum 0).
Proof.
  pose proof lookup_Kramatorsk as E.
  destruct (loop_writes_five_labels (Demo.stub_near 10 0 80) "Kramatorsk" 5 "inertial"
              _ _ _ _ _ E (surjective_pairing _)) as (_ & _ & Hc & _).
  eexists _, _. split; [vm_compute; reflexivity|]. split; [reflexivity|].
  rewrite Hc. vm_compute. reflexivity.
Defined.

(** C7, as amended.  Take a front-dynamics stub that answers the same delta
    [p >= 0] whatever the row, and the runs of one city from one world under
    [aggressive] and under [conservative].  On every day both histories
    have, the distance of the aggressive run is at most that of the
    conservative run.  Each run works on its own copy: the data frame is as
    it was after either run, and either run returns the same history when
    it is started in the world the other one left. *)
Theorem scenario_order self city days_a days_c w h_a h_c w_a w_c p :
  (forall row, model_A_predict self row == p)%Q ->
  (0 <= p)%Q ->
  run_simulation self city days_a "aggressive" w = (Ret (Some h_a), w_a) ->
  run_simulation self city days_c "conservative" w = (Ret (Some h_c), w_c) ->
  (forall k snap_a snap_c,
     h_a !! k = Some snap_a -> h_c !! k = Some snap_c ->
     (dist_to_front snap_a <= dist_to_front snap_c)%Q)
  /\ df w_a = df w /\ df w_c = df w
  /\ fst (run_simulation self city days_c "conservative" w_a) = Ret (Some h_c)
  /\ fst (run_simulation self city days_a "aggressive" w_c) = Ret (Some h_a).
Proof.
  intros Hp Hp0 Ea Ec.
  assert (df w_a = df w) as Hdfa
    by (pose proof (run_df self city days_a "aggressive" w) as H; now rewrite Ea in H).
  assert (df w_c = df w) as Hdfc
    by (pose proof (run_df self city days_c "conservative" w) as H; now rewrite Ec in H).
  split; [|split; [exact Hdfa|split; [exact Hdfc|split]]].
  - apply run_Ret_Some in Ea as (cs & w1 & va & sta & Eg & _ & _ & Ela & _).
    apply run_Ret_Some in Ec as (cs' & w1' & vc & stc & Eg' & _ & _ & Elc & _).
    rewrite Eg in Eg'. injection Eg' as <- <-.
    apply loop_Ret_history in Ela, Elc. cbn [cur app] in Ela, Elc. subst h_a h_c.
    intros k snap_a snap_c Ha Hc.
    apply history_from_lookup in Ha as (da & _ & -> & _).
    apply history_from_lookup in Hc as (dc & _ & -> & _).
    cbn [day_snapshot dist_to_front]. apply round_mono.
    assert (modifier_of "conservative" <= modifier_of "aggressive")%Q as Hm
      by (vm_compute; congruence).
    apply (new_distance_order _ _ _ p); auto.
    apply (state_after_order _ _ _ p); auto. apply Qle_refl.
  - rewrite (run_result_df self city days_c "conservative" w_a w Hdfa). now rewrite Ec.
  - rewrite (run_result_df self city days_a "aggressive" w_c w Hdfc). now rewrite Ea.
Qed.

Lemma scenario_order_witness :
  Forall2 (fun snap_a snap_c => dist_to_front snap_a <= dist_to_front snap_c)%Q
    (history_of (fst (run_simulation (Demo.stub 10 0 (1 # 10)) "Kramatorsk" 4 "aggressive"
                        Demo.world)))
    (history_of (fst (run_simulation (Demo.stub 10 0 (1 # 10)) "Kramatorsk" 4 "conservative"
                        Demo.world))).
Proof.
  assert (ready (Demo.stub 10 0 (1 # 10))
            (obj (looked_up Demo.world (Demo.row "Kramatorsk" 21 100 0)) 1) = true) as Hr
    by (vm_compute; reflexivity).
  assert (obj (looked_up Demo.world (Demo.row "Kramatorsk" 21 100 0)) 1 !! "is_captured"
          = Some (VNum 0)) as Hv by (vm_compute; reflexivity).
  apply Forall2_same_length_lookup_2; [vm_compute; reflexivity|].
  destruct (run_ready (Demo.stub 10 0 (1 # 10)) "Kramatorsk" 4 "aggressive" _ _ _ _
              lookup_Kramatorsk Hr Hv eq_refl) as [w_a Ea].
  destruct (run_ready (Demo.stub 10 0 (1 # 10)) "Kramatorsk" 4 "conservative" _ _ _ _
              lookup_Kramatorsk Hr Hv eq_refl) as [w_c Ec].
  destruct (scenario_order (Demo.stub 10 0 (1 # 10)) "Kramatorsk" 4 4 Demo.world _ _ _ _ 10
              ltac:(intros row; reflexivity) ltac:(vm_compute; congruence) Ea Ec)
    as [H _].
  rewrite Ea, Ec. exact H.
Defined.

(** C7 as stated fails on the code.  A stub that answers a withdrawal of
    10 m a day puts the aggressive run farther from the front on day 1.  A
    stub that never answers a negative delta but answers by the distance
    (100 m at 1000 m, 400 m between 900 m and 1000 m, nothing closer) lets
    the conservative run overtake the aggressive one on day 2. *)
Lemma aggressive_not_closer_counterexample :
  (exists a c rest_a rest_c,
     fst (run_simulation (Demo.stub (-10) 0 0) "Kramatorsk" 3 "aggressive" Demo.world)
     = Ret (Some (a :: rest_a))
     /\ fst (run_simulation (Demo.stub (-10) 0 0) "Kramatorsk" 3 "conservative" Demo.world)
        = Ret (Some (c :: rest_c))
     /\ ~ (dist_to_front a <= dist_to_front c)%Q)
  /\ (exists a c,
        history_of (fst (run_simulation Demo.stub_surge "Lyman" 3 "aggressive"
                           Demo.world)) !! 1 = Some a
        /\ history_of (fst (run_simulation Demo.stub_surge "Lyman" 3 "conservative"
                              Demo.world)) !! 1 = Some c
        /\ ~ (dist_to_front a <= dist_to_front c)%Q).
Proof.
  split.
  - eexists _, _, _, _. split; [vm_compute; reflexivity|].
    split; [vm_compute; reflexivity|]. vm_compute. congruence.
  - eexists _, _. split; [vm_compute; reflexivity|].
    split; [vm_compute; reflexivity|]. vm_compute. congruence.
Qed.

(** C9, as amended.  On any day, with the history [h] gathered so far: if
    the state lacks features of the front-dynamics predictor, or (stage 1
    done) the updated state lacks features of the encirclement predictor, or
    (stage 2 done) lacks features of the capture predictor, the loop raises
    [KeyError] with the labels of that predictor that are not in the state,
    in the predictor's order; what is raised carries no predictor role.  A
    loop that raises returns no history, so no snapshot of that day, and the
    run raises the same error instead of returning. *)
Theorem missing_feature_raises self m d rest h st :
  let s := cur st in
  let s1 := Stage.momentum_update self m s in
  let s2 := Stage.day_state self m s in
  (missing s (feats_A self) <> [] ->
   loop self m (d :: rest) h st = (Raise (KeyError (missing s (feats_A self))), st))
  /\ (forallb (is_num s) (feats_A self) = true ->
      is_num s "dist_to_front_m" = true ->
      is_num s "momentum_7d" = true ->
      is_num s "momentum_30d" = true ->
      (missing s1 (feats_B self) <> [] ->
       exists st',
         loop self m (d :: rest) h st = (Raise (KeyError (missing s1 (feats_B self))), st'))
      /\ (forallb (is_num s1) (feats_B self) = true ->
          missing s2 (feats_C self) <> [] ->
          exists st',
            loop self m (d :: rest) h st
            = (Raise (KeyError (missing s2 (feats_C self))), st')))
  /\ (forall (x : Series) labels k, k ∈ missing x labels <-> k ∈ labels /\ x !! k = None)
  /\ (forall city days scenario w cs w1 v e st',
        get_city_state city w = (Ret cs, w1) ->
        obj w1 cs !! "is_captured" = Some v ->
        Series.eq1 v = false ->
        loop self (modifier_of scenario) (py_range 1 (days + 1)) []
          {| cur := obj w1 cs; log := trace w1 |} = (Raise e, st') ->
        fst (run_simulation self city days scenario w) = Raise e).
Proof.
  intros s s1 s2. split; [|split; [|split]].
  - intros H. apply loop_raise. now apply day_body_raise_A.
  - intros HA H0 H7 H30. split.
    + intros H. destruct (day_body_raise_B self m d st HA H0 H7 H30 H) as [st' E].
      exists st'. now apply loop_raise.
    + intros HB H.
      destruct (day_body_raise_C self m d st HA H0 H7 H30 HB H) as [st' E].
      exists st'. now apply loop_raise.
  - intros x labels k. apply missing_elem.
  - intros city days scenario w cs w1 v e st' E Hv Hf El.
    rewrite (run_from_anchor _ _ _ _ _ _ _ E). unfold Series.getitem.
    rewrite Hv, Hf, El. reflexivity.
Qed.

Lemma missing_feature_raises_witness :
  fst (loop (Demo.stub_with ["dist_to_front_m"; "weather"; "momentum_7d"; "fuel"] [] [])
         1 [3%Z; 4%Z] [] (Demo.state 100))
  = Raise (KeyError ["weather"; "fuel"]).
Proof.
  destruct (missing_feature_raises
              (Demo.stub_with ["dist_to_front_m"; "weather"; "momentum_7d"; "fuel"] [] [])
              1 3 [4%Z] [] (Demo.state 100)) as [H _].
  rewrite H; [|vm_compute; discriminate]. vm_compute. reflexivity.
Defined.

(** C9 as stated fails on the code: what is raised is the [KeyError] of the
    label selection, which names the absent labels and no predictor.  The
    same error comes out when the front-dynamics predictor lacks [weather]
    and when only the encirclement predictor does. *)
Lemma error_without_role_counterexample :
  fst (run_simulation (Demo.stub_with ["dist_to_front_m"; "weather"] ["dist_to_front_m"] [])
         "Kramatorsk" 3 "inertial" Demo.world)
  = Raise (KeyError ["weather"])
  /\ fst (run_simulation (Demo.stub_with ["dist_to_front_m"] ["dist_to_front_m"; "weather"] [])
            "Kramatorsk" 3 "inertial" Demo.world)
     = Raise (KeyError ["weather"])
  /\ ("weather" ∈ feats_A (Demo.stub_with ["dist_to_front_m"; "weather"] ["dist_to_front_m"] []))
  /\ ("weather" ∉ feats_A (Demo.stub_with ["dist_to_front_m"] ["dist_to_front_m"; "weather"] []))
  /\ ("weather" ∈ feats_B (Demo.stub_with ["dist_to_front_m"] ["dist_to_front_m"; "weather"] [])).
Proof.
  split; [vm_compute; reflexivity|]. split; [vm_compute; reflexivity|].
  cbn [Demo.stub_with feats_A feats_B]. split; [|split].
  - right. left.
  - rewrite !not_elem_of_cons. split; [discriminate|apply not_elem_of_nil].
  - right. left.
Qed.

(** * Further properties of the simulator *)

(** ** Helper lemmas *)

Lemma history_from_length_le self m days : forall s,
  length (history_from self m s days) <= length days.
Proof.
  induction days as [|d rest IH]; intros s; cbn [history_from length]; [lia|].
  destruct (day_captured self m s); cbn [length]; [lia|].
  specialize (IH (Stage.day_state self m s)). lia.
Qed.

(** A history shorter than its days ends on a day that decided capture. *)
Lemma history_from_short self m days : forall s,
  length (history_from self m s days) < length days ->
  exists snap, last (history_from self m s days) = Some snap /\ status snap = OCCUPIED.
Proof.
  induction days as [|d rest IH]; intros s; cbn [history_from length]; [lia|].
  destruct (day_captured self m s) eqn:Ec.
  - intros _. exists (day_snapshot self m d s). split; [reflexivity|].
    cbn [day_snapshot status]. now rewrite Ec.
  - cbn [length]. intros H.
    destruct (IH (Stage.day_state self m s)) as (snap & Hl & Hs); [lia|].
    exists snap. split; [|exact Hs].
    destruct (history_from self m (Stage.day_state self m s) rest) as [|x l] eqn:Eh;
      [discriminate|].
    rewrite last_cons. now rewrite Hl.
Qed.

(** The history of a returned run, for any anchor. *)
Lemma run_Ret_history self city days scenario w h w' :
  run_simulation self city days scenario w = (Ret (Some h), w') ->
  exists cs w1,
    get_city_state city w = (Ret cs, w1)
    /\ h = history_from self (modifier_of scenario) (obj w1 cs) (py_range 1 (days + 1)).
Proof.
  intros E. apply run_Ret_Some in E as (cs & w1 & v & st' & Eg & _ & _ & El & _).
  apply loop_Ret_history in El. cbn [cur app] in El. eauto.
Qed.

Lemma status_day_snapshot self m d s :
  status (day_snapshot self m d s) = if day_captured self m s then OCCUPIED else FREE.
Proof. reflexivity. Qed.

(** X1.  A returned history has at most [days] snapshots, and its snapshots
    are numbered 1, 2, 3, ... in order, whatever the anchor holds. *)
Theorem history_days_numbered self city days scenario w h w' :
  run_simulation self city days scenario w = (Ret (Some h), w') ->
  length h <= Z.to_nat days
  /\ forall i snap, h !! i = Some snap -> day snap = Z.of_nat (S i).
Proof.
  intros E. apply run_Ret_history in E as (cs & w1 & _ & ->). split.
  - etransitivity; [apply history_from_length_le|].
    rewrite py_range_length. lia.
  - intros i snap Hi. apply history_from_lookup in Hi as (d & Hd & -> & _).
    apply py_range_lookup in Hd as ->. cbn [day_snapshot day]. lia.
Qed.

Lemma history_days_numbered_witness :
  length (history_of (fst (run_simulation (Demo.stub_near 10 0 80) "Kramatorsk" 5
                             "inertial" Demo.world))) <= 5.
Proof.
  destruct (run_simulation (Demo.stub_near 10 0 80) "Kramatorsk" 5 "inertial" Demo.world)
    as [[[h|]|e] w'] eqn:E; cbn [fst history_of length]; try lia.
  destruct (history_days_numbered _ _ _ _ _ _ _ E) as [H _]. exact H.
Defined.

(** X2.  In a returned history only the last snapshot can be OCCUPIED: every
    snapshot that has a successor is FREE; and a history shorter than the
    horizon ends with an OCCUPIED snapshot.  So the run stops early exactly
    when a day decides capture. *)
Theorem stops_early_iff_captured self city days scenario w h w' :
  run_simulation self city days scenario w = (Ret (Some h), w') ->
  (forall i snap, h !! i = Some snap -> S i < length h -> status snap = FREE)
  /\ (forall i snap, h !! i = Some snap -> status snap = OCCUPIED -> S i = length h)
  /\ (length h < Z.to_nat days ->
      exists snap, last h = Some snap /\ status snap = OCCUPIED).
Proof.
  intros E. apply run_Ret_history in E as (cs & w1 & _ & ->).
  set (m := modifier_of scenario). set (anchor := obj w1 cs).
  assert (forall i snap,
            history_from self m anchor (py_range 1 (days + 1)) !! i = Some snap ->
            S i < length (history_from self m anchor (py_range 1 (days + 1))) ->
            status snap = FREE) as Hfree.
  { intros i snap Hi Hlt.
    destruct (lookup_lt_is_Some_2 _ _ Hlt) as [next Hn].
    apply history_from_lookup in Hn as (_ & _ & _ & Hbefore).
    apply history_from_lookup in Hi as (d & _ & -> & _).
    rewrite status_day_snapshot. now rewrite (Hbefore i) by lia. }
  split; [exact Hfree|]. split.
  - intros i snap Hi Hs. pose proof (lookup_lt_Some _ _ _ Hi) as Hlt.
    destruct (Nat.eq_dec (S i) (length (history_from self m anchor (py_range 1 (days + 1)))))
      as [Heq|Hne]; [exact Heq|].
    rewrite (Hfree i snap Hi) in Hs by lia. discriminate.
  - intros Hlt. apply history_from_short. rewrite py_range_length.
    replace (days + 1 - 1)%Z with days by lia. exact Hlt.
Qed.

Lemma stops_early_iff_captured_witness :
  exists snap,
    last (history_of (fst (run_simulation (Demo.stub_near 10 0 80) "Kramatorsk" 5
                             "inertial" Demo.world))) = Some snap
    /\ status snap = OCCUPIED.
Proof.
  assert (ready (Demo.stub_near 10 0 80)
            (obj (looked_up Demo.world (Demo.row "Kramatorsk" 21 100 0)) 1) = true) as Hr
    by (vm_compute; reflexivity).
  assert (obj (looked_up Demo.world (Demo.row "Kramatorsk" 21 100 0)) 1 !! "is_captured"
          = Some (VNum 0)) as Hv by (vm_compute; reflexivity).
  destruct (run_ready (Demo.stub_near 10 0 80) "Kramatorsk" 5 "inertial" _ _ _ _
              lookup_Kramatorsk Hr Hv eq_refl) as [w' E].
  destruct (stops_early_iff_captured _ _ _ _ _ _ _ E) as (_ & _ & H).
  rewrite E. cbn [fst history_of]. apply H. vm_compute. lia.
Defined.

Lemma roles_of_days_cons n :
  ([FrontDynamics; Encirclement; Capture] ++ roles_of_days n)%list = roles_of_days (S n).
Proof. reflexivity. Qed.

Lemma length_roles_of_days n : length (roles_of_days n) = 3 * n.
Proof.
  unfold roles_of_days. induction n as [|n IH]; [reflexivity|].
  cbn [replicate concat]. rewrite length_app, IH. cbn [length]. lia.
Qed.

(** The calls a returning loop adds: three a snapshot, in the order of the
    cascade. *)
Lemma loop_Ret_log self m days : forall h st h' st',
  loop self m days h st = (Ret h', st') ->
  exists calls n,
    log st' = (log st ++ calls)%list
    /\ length h' = length h + n
    /\ role <$> calls = roles_of_days n.
Proof.
  induction days as [|d rest IH]; intros h st h' st'; cbn [loop].
  - intros [= <- <-]. exists [], 0. rewrite app_nil_r. repeat split. lia.
  - unfold mbind, SE_bind.
    destruct (day_body self m d st) as [[[sn cap]|e] st1] eqn:E; [|discriminate].
    apply day_body_Ret_eq in E as (_ & [= -> ->] & ->).
    destruct (day_captured self m (cur st)).
    + intros [= <- <-]. exists (Stage.day_calls self m (cur st)), 1.
      rewrite length_app. cbn [length day_end log]. repeat split.
    + intros E. apply IH in E as (calls & n & Hl & Hn & Hr).
      exists (Stage.day_calls self m (cur st) ++ calls)%list, (S n).
      rewrite Hl. cbn [day_end log]. rewrite <- app_assoc. split; [reflexivity|].
      rewrite Hn, length_app. cbn [length]. split; [lia|].
      rewrite fmap_app, Hr. apply roles_of_days_cons.
Qed.

(** X3.  A run that returns a history of [n] snapshots has called the
    predictors [3 * n] times after the calls made before it: front dynamics,
    encirclement, capture, once each per snapshot and in that order. *)
Theorem three_calls_a_day self city days scenario w h w' :
  run_simulation self city days scenario w = (Ret (Some h), w') ->
  exists calls,
    trace w' = (trace w ++ calls)%list
    /\ role <$> calls = roles_of_days (length h)
    /\ length calls = 3 * length h.
Proof.
  intros E. apply run_Ret_Some in E as (cs & w1 & v & st' & Eg & _ & _ & El & ->).
  apply get_city_state_Ret in Eg as (r & _ & _ & _ & _ & ->).
  apply loop_Ret_log in El as (calls & n & Hl & Hn & Hr).
  cbn [log length looked_up trace] in *.
  assert (n = length h) as -> by lia.
  exists calls. split; [exact Hl|]. split; [exact Hr|].
  rewrite <- (length_fmap role), Hr. apply length_roles_of_days.
Qed.

Lemma three_calls_a_day_witness :
  role <$> trace (snd (run_simulation (Demo.stub_near 10 0 80) "Kramatorsk" 5 "inertial"
                         Demo.world))
  = [FrontDynamics; Encirclement; Capture; FrontDynamics; Encirclement; Capture].
Proof.
  assert (ready (Demo.stub_near 10 0 80)
            (obj (looked_up Demo.world (Demo.row "Kramatorsk" 21 100 0)) 1) = true) as Hr
    by (vm_compute; reflexivity).
  assert (obj (looked_up Demo.world (Demo.row "Kramatorsk" 21 100 0)) 1 !! "is_captured"
          = Some (VNum 0)) as Hv by (vm_compute; reflexivity).
  destruct (run_ready (Demo.stub_near 10 0 80) "Kramatorsk" 5 "inertial" _ _ _ _
              lookup_Kramatorsk Hr Hv eq_refl) as [w' E].
  destruct (three_calls_a_day _ _ _ _ _ _ _ E) as (calls & Ht & Hroles & _).
  rewrite E. cbn [snd]. rewrite Ht. cbn [Demo.world Demo.frame_of trace app].
  rewrite Hroles. vm_compute. reflexivity.
Defined.

(** X4.  The status of a snapshot agrees with the probability it records:
    an OCCUPIED snapshot records a capture probability of at least 0.5, a
    FREE snapshot one of at most 0.5 (the decision is taken on the
    probability before it is rounded to three decimals, so exactly 0.5 can
    be recorded with either status). *)
Theorem status_matches_recorded_probability self city days scenario w h w' :
  run_simulation self city days scenario w = (Ret (Some h), w') ->
  forall snap, snap ∈ h ->
    (status snap = OCCUPIED -> 1 # 2 <= prob_capture snap)%Q
    /\ (status snap = FREE -> prob_capture snap <= 1 # 2)%Q.
Proof.
  intros E snap Hs.
  apply run_Ret_Some in E as (cs & w1 & v & st' & _ & _ & _ & El & _).
  destruct (loop_Ret_snapshots _ _ _ _ _ _ _ El snap Hs) as [H|(d & s & ->)];
    [now apply elem_of_nil in H|].
  cbn [day_snapshot status prob_capture].
  assert (Num.round (1 # 2) 3 == 1 # 2)%Q as Hhalf by reflexivity.
  destruct (day_captured self (modifier_of scenario) s) eqn:Ec.
  - split; [intros _|discriminate]. apply day_captured_true in Ec.
    rewrite <- Hhalf. apply round_mono. lra.
  - split; [discriminate|intros _]. apply day_captured_false in Ec.
    rewrite <- Hhalf. now apply round_mono.
Qed.

Lemma status_matches_recorded_probability_witness :
  Forall (fun snap => status snap = FREE -> prob_capture snap <= 1 # 2)%Q
    (history_of (fst (run_simulation (Demo.stub 10 0 (1 # 10)) "Kramatorsk" 3 "inertial"
                        Demo.world))).
Proof.
  destruct (run_simulation (Demo.stub 10 0 (1 # 10)) "Kramatorsk" 3 "inertial" Demo.world)
    as [[[h|]|e] w'] eqn:E; cbn [fst history_of]; try constructor.
  apply Forall_forall. intros snap Hs.
  apply (status_matches_recorded_probability _ _ _ _ _ _ _ E snap Hs).
Defined.

(** X5.  When the record of the city has no [is_captured] cell, the run
    raises [KeyError] for that label before it calls any predictor, whatever
    the horizon and the scenario. *)
Theorem flag_missing_raises self city days scenario w cs w1 :
  get_city_state city w = (Ret cs, w1) ->
  obj w1 cs !! "is_captured" = None ->
  run_simulation self city days scenario w = (Raise (KeyError ["is_captured"]), w1)
  /\ trace w1 = trace w.
Proof.
  intros E Hn. rewrite (run_from_anchor _ _ _ _ _ _ _ E).
  unfold Series.getitem. rewrite Hn. split; [reflexivity|].
  apply get_city_state_Ret in E as (r & _ & _ & _ & _ & ->). reflexivity.
Qed.

Lemma flag_missing_raises_witness :
  fst (run_simulation (Demo.stub 10 0 0) "Izium" 60 "inertial" frame_without_flag)
  = Raise (KeyError ["is_captured"]).
Proof.
  assert (get_city_state "Izium" frame_without_flag
          = (Ret 1, looked_up frame_without_flag
                      {| name := "Izium"; date := 21;
                         cols := delete "is_captured" (Demo.columns 500 0) |})) as E
    by reflexivity.
  destruct (flag_missing_raises (Demo.stub 10 0 0) "Izium" 60 "inertial" _ _ _ E) as [-> _].
  - vm_compute. reflexivity.
  - reflexivity.
Defined.

Lemma modifier_of_pos scenario : (0 < modifier_of scenario)%Q.
Proof.
  unfold modifier_of, modifiers.
  rewrite !lookup_insert. repeat case_decide; cbn [default]; try reflexivity.
  rewrite lookup_singleton. case_decide; reflexivity.
Qed.

(** With a front model that never predicts a withdrawal, the distance of the
    state never grows and never gets negative. *)
Lemma state_distance_step self m s :
  (forall row, 0 <= model_A_predict self row)%Q -> (0 <= m)%Q ->
  (0 <= num_at s "dist_to_front_m")%Q ->
  (0 <= num_at (Stage.day_state self m s) "dist_to_front_m"
   <= num_at s "dist_to_front_m")%Q.
Proof.
  intros Hp Hm Hd. rewrite num_at_day_state_dist. unfold Stage.new_distance.
  assert (0 <= Stage.adjusted_delta self m s)%Q
    by (unfold Stage.adjusted_delta; apply Qmult_le_0_compat; auto).
  destruct (max0_spec (num_at s "dist_to_front_m" - Stage.adjusted_delta self m s))
    as [[? ->]|[? ->]]; lra.
Qed.

Lemma state_distance_chain self m s :
  (forall row, 0 <= model_A_predict self row)%Q -> (0 <= m)%Q ->
  (0 <= num_at s "dist_to_front_m")%Q ->
  forall i j, i <= j ->
    (0 <= num_at (Stage.state_after self m j s) "dist_to_front_m"
     <= num_at (Stage.state_after self m i s) "dist_to_front_m")%Q.
Proof.
  intros Hp Hm Hd.
  assert (forall k, 0 <= num_at (Stage.state_after self m k s) "dist_to_front_m")%Q as Hnn.
  { induction k as [|k IH]; [exact Hd|].
    change (Stage.state_after self m (S k) s)
      with (Stage.day_state self m (Stage.state_after self m k s)).
    now apply state_distance_step. }
  intros i j Hij. induction Hij as [|j Hij IH]; [split; [apply Hnn|apply Qle_refl]|].
  change (Stage.state_after self m (S j) s)
    with (Stage.day_state self m (Stage.state_after self m j s)).
  pose proof (state_distance_step self m (Stage.state_after self m j s) Hp Hm (Hnn j)).
  lra.
Qed.

(** X7.  With a front model that never predicts a withdrawal and an anchor
    whose distance is not negative, the distances of a returned history
    never grow from one day to a later one, under any scenario label; they
    are never negative and start at most at the anchor's distance; so once
    a snapshot shows distance 0, every later one does. *)
Theorem distances_never_grow self city days scenario w cs w1 h w' :
  (forall row, 0 <= model_A_predict self row)%Q ->
  get_city_state city w = (Ret cs, w1) ->
  (0 <= num_at (obj w1 cs) "dist_to_front_m")%Q ->
  run_simulation self city days scenario w = (Ret (Some h), w') ->
  (forall i j a b, i <= j -> h !! i = Some a -> h !! j = Some b ->
     (dist_to_front b <= dist_to_front a)%Q)
  /\ (forall snap, snap ∈ h ->
        (0 <= dist_to_front snap
         <= Num.round (num_at (obj w1 cs) "dist_to_front_m") 0)%Q)
  /\ (forall i j a b, i <= j -> h !! i = Some a -> h !! j = Some b ->
        (dist_to_front a == 0 -> dist_to_front b == 0)%Q).
Proof.
  intros Hp Eg Hd E.
  apply run_Ret_history in E as (cs' & w1' & Eg' & ->).
  rewrite Eg in Eg'. injection Eg' as <- <-.
  set (m := modifier_of scenario). set (anchor := obj w1 cs) in *.
  assert (0 <= m)%Q as Hm by (apply Qlt_le_weak, modifier_of_pos).
  assert (forall i snap,
            history_from self m anchor (py_range 1 (days + 1)) !! i = Some snap ->
            dist_to_front snap
            = Num.round (num_at (Stage.state_after self m (S i) anchor) "dist_to_front_m") 0)
    as Hsnap.
  { intros i snap Hi. apply history_from_lookup in Hi as (d & _ & -> & _).
    cbn [day_snapshot dist_to_front].
    change (Stage.state_after self m (S i) anchor)
      with (Stage.day_state self m (Stage.state_after self m i anchor)).
    now rewrite num_at_day_state_dist. }
  assert (forall i j a b, i <= j ->
            history_from self m anchor (py_range 1 (days + 1)) !! i = Some a ->
            history_from self m anchor (py_range 1 (days + 1)) !! j = Some b ->
            (0 <= dist_to_front b <= dist_to_front a)%Q) as Hmono.
  { intros i j a b Hij Ha Hb. rewrite (Hsnap _ _ Ha), (Hsnap _ _ Hb).
    destruct (state_distance_chain self m anchor Hp Hm Hd (S i) (S j)) as [H0 H1]; [lia|].
    split.
    - rewrite <- (round_inject 0 0). now apply round_mono.
    - now apply round_mono. }
  split; [|split].
  - intros i j a b Hij Ha Hb. now apply (Hmono i j a b).
  - intros snap [i Hi]%list_elem_of_lookup. split.
    + apply (Hmono i i snap snap); auto.
    + rewrite (Hsnap _ _ Hi). apply round_mono.
      apply (state_distance_chain self m anchor Hp Hm Hd 0 (S i)). lia.
  - intros i j a b Hij Ha Hb H0. destruct (Hmono i j a b Hij Ha Hb) as [Hb0 Hba].
    rewrite H0 in Hba. apply Qle_antisym; assumption.
Qed.

Lemma distances_never_grow_witness :
  Forall (fun snap => 0 <= dist_to_front snap <= 100)%Q
    (history_of (fst (run_simulation (Demo.stub 30 0 (1 # 10)) "Kramatorsk" 6 "aggressive"
                        Demo.world))).
Proof.
  destruct (run_simulation (Demo.stub 30 0 (1 # 10)) "Kramatorsk" 6 "aggressive" Demo.world)
    as [[[h|]|e] w'] eqn:E; cbn [fst history_of]; try constructor.
  apply Forall_forall. intros snap Hs.
  destruct (distances_never_grow (Demo.stub 30 0 (1 # 10)) "Kramatorsk" 6 "aggressive"
              Demo.world _ _ h w' ltac:(intros row; vm_compute; congruence)
              lookup_Kramatorsk ltac:(vm_compute; congruence) E) as (_ & H & _).
  destruct (H snap Hs) as [H0 H1]. split; [exact H0|].
  eapply Qle_trans; [exact H1|]. vm_compute. congruence.
Defined.

(** Two runs that start from anchors of the same content agree. *)
Lemma run_result_anchor self city days scenario w w0 cs cs0 w1 w10 :
  get_city_state city w = (Ret cs, w1) ->
  get_city_state city w0 = (Ret cs0, w10) ->
  obj w1 cs = obj w10 cs0 ->
  fst (run_simulation self city days scenario w)
  = fst (run_simulation self city days scenario w0).
Proof.
  intros E E0 Ho.
  rewrite (run_from_anchor _ _ _ _ _ _ _ E), (run_from_anchor _ _ _ _ _ _ _ E0).
  rewrite Ho.
  destruct (Series.getitem (obj w10 cs0) "is_captured") as [v|]; [|reflexivity].
  destruct (Series.eq1 v); [reflexivity|].
  destruct (log_blind_loop self (modifier_of scenario) (py_range 1 (days + 1)) []
              {| cur := obj w10 cs0; log := trace w1 |}
              {| cur := obj w10 cs0; log := trace w10 |} eq_refl) as [H _].
  destruct (loop _ _ _ _ {| cur := obj w10 cs0; log := trace w1 |}) as [res st].
  destruct (loop _ _ _ _ {| cur := obj w10 cs0; log := trace w10 |}) as [res0 st0].
  cbn [fst] in *. now subst.
Qed.

Lemma get_city_state_Raise city w e w1 :
  get_city_state city w = (Raise e, w1) -> forall r, r ∈ df w -> name r <> city.
Proof.
  intros E r Hr Hn. destruct (get_city_state_found _ _ _ Hr Hn) as (cs & w2 & E2).
  rewrite E in E2. discriminate.
Qed.

(** X9.  The order of the records in the data frame does not matter: when
    no two records of the city have the same date, a run on a frame with
    the same records in another order gives the same result. *)
Theorem run_ignores_row_order self city days scenario w w0 :
  df w ≡ₚ df w0 ->
  (forall r1 r2, r1 ∈ df w -> r2 ∈ df w -> name r1 = city -> name r2 = city ->
     date r1 = date r2 -> r1 = r2) ->
  fst (run_simulation self city days scenario w)
  = fst (run_simulation self city days scenario w0).
Proof.
  intros Hp Hdistinct.
  destruct (get_city_state city w) as [[cs|e] w1] eqn:E.
  - pose proof (get_city_state_Ret _ _ _ _ E) as (r & Hr & Hn & Hmax & -> & ->).
    assert (r ∈ df w0) as Hr0 by now rewrite <- Hp.
    destruct (get_city_state_found _ _ _ Hr0 Hn) as (cs0 & w10 & E0).
    pose proof (get_city_state_Ret _ _ _ _ E0) as (r0 & Hr0' & Hn0 & Hmax0 & -> & ->).
    assert (r0 ∈ df w) as Hr0w by now rewrite Hp.
    assert (r = r0) as <-.
    { apply Hdistinct; auto. specialize (Hmax r0 Hr0w Hn0). specialize (Hmax0 r Hr0 Hn). lia. }
    apply (run_result_anchor _ _ _ _ _ _ _ _ _ _ E E0). now rewrite !looked_up_obj.
  - pose proof (get_city_state_Raise _ _ _ _ E) as Hno.
    assert (forall r, r ∈ df w0 -> name r <> city) as Hno0
      by (intros r Hr; apply Hno; now rewrite Hp).
    rewrite (run_Raise_lookup _ _ _ _ _ _ _ (get_city_state_absent _ _ Hno)).
    now rewrite (run_Raise_lookup _ _ _ _ _ _ _ (get_city_state_absent _ _ Hno0)).
Qed.

Lemma run_ignores_row_order_witness :
  fst (run_simulation (Demo.stub 10 0 (1 # 10)) "Lyman" 3 "inertial" Demo.world)
  = fst (run_simulation (Demo.stub 10 0 (1 # 10)) "Lyman" 3 "inertial"
           (Demo.frame_of (reverse (df Demo.world)))).
Proof.
  apply run_ignores_row_order.
  - cbn [Demo.frame_of df]. symmetry. apply reverse_Permutation.
  - intros r1 r2 H1 H2 N1 N2 _. cbn [Demo.world Demo.frame_of df] in H1, H2.
    rewrite !elem_of_cons in H1, H2.
    destruct H1 as [->|[->|[->|[->|[->|H1]]]]]; try discriminate N1;
      [|now apply elem_of_nil in H1].
    destruct H2 as [->|[->|[->|[->|[->|H2]]]]]; try discriminate N2;
      [reflexivity|now apply elem_of_nil in H2].
Defined.

(** Whether a run returns [None] is decided by the anchor alone. *)
Lemma run_None_any self city days scenario w :
  fst (run_simulation self city days scenario w) = Ret None ->
  forall days' scenario', fst (run_simulation self city days' scenario' w) = Ret None.
Proof.
  destruct (get_city_state city w) as [[cs|e] w1] eqn:E.
  - intros H days' scenario'.
    rewrite (run_from_anchor _ _ _ _ _ _ _ E) in H.
    rewrite (run_from_anchor _ _ _ _ _ _ _ E).
    destruct (Series.getitem (obj w1 cs) "is_captured") as [v|]; [|discriminate].
    destruct (Series.eq1 v); [reflexivity|].
    destruct (loop _ _ _ _ _) as [[h|e] st] in H; discriminate.
  - rewrite (run_Raise_lookup _ _ _ _ _ _ _ E). discriminate.
Qed.

Lemma run_Some_any self city days scenario w h :
  fst (run_simulation self city days scenario w) = Ret (Some h) ->
  forall days' scenario' r,
    fst (run_simulation self city days' scenario' w) = Ret r -> exists h', r = Some h'.
Proof.
  intros H days' scenario' [h'|] H'; [eauto|].
  rewrite (run_None_any _ _ _ _ _ H' days scenario) in H. discriminate.
Qed.

(** X11.  The usage example (three scenarios one after the other on one
    simulator) gives what three separate runs from the initial world give:
    an earlier run changes nothing a later run reads.  It raises the error
    of the first run that raises, leaves the data frame as it was, and its
    three results are all [None] (city already occupied) or all
    histories. *)
Theorem main_runs_are_independent self city w :
  fst (main self city w)
  = match fst (run_simulation self city 60 "conservative" w),
          fst (run_simulation self city 60 "inertial" w),
          fst (run_simulation self city 60 "aggressive" w) with
    | Raise e, _, _ => Raise e
    | Ret _, Raise e, _ => Raise e
    | Ret _, Ret _, Raise e => Raise e
    | Ret a, Ret b, Ret c => Ret (a, b, c)
    end
  /\ df (snd (main self city w)) = df w
  /\ forall a b c,
       fst (main self city w) = Ret (a, b, c) ->
       (a = None /\ b = None /\ c = None)
       \/ (exists ha hb hc, a = Some ha /\ b = Some hb /\ c = Some hc).
Proof.
  pose proof (run_df self city 60 "conservative" w) as D1.
  destruct (run_simulation self city 60 "conservative" w) as [r1 w1] eqn:E1.
  pose proof (run_df self city 60 "inertial" w1) as D2.
  pose proof (run_result_df self city 60 "inertial" w1 w D1) as R2.
  destruct (run_simulation self city 60 "inertial" w1) as [r2 w2] eqn:E2.
  cbn [fst snd] in *.
  assert (df w2 = df w) as D2' by congruence.
  pose proof (run_df self city 60 "aggressive" w2) as D3.
  pose proof (run_result_df self city 60 "aggressive" w2 w D2') as R3.
  destruct (run_simulation self city 60 "aggressive" w2) as [r3 w3] eqn:E3.
  cbn [fst snd] in *.
  assert (main self city w
          = match r1 with
            | Raise e => (Raise e, w1)
            | Ret a =>
                match r2 with
                | Raise e => (Raise e, w2)
                | Ret b =>
                    match r3 with
                    | Raise e => (Raise e, w3)
                    | Ret c => (Ret (a, b, c), w3)
                    end
                end
            end) as Hmain.
  { unfold main, mbind, SE_bind. rewrite E1. destruct r1 as [a|e]; [|reflexivity].
    rewrite E2. destruct r2 as [b|e]; [|reflexivity].
    rewrite E3. destruct r3 as [c|e]; reflexivity. }
  rewrite Hmain, <- R2, <- R3. split; [|split].
  - destruct r1, r2, r3; reflexivity.
  - destruct r1 as [a|]; [|exact D1]. destruct r2 as [b|]; [|exact D2'].
    destruct r3; cbn [snd]; congruence.
  - intros a b c H.
    destruct r1 as [a'|]; [|discriminate]. destruct r2 as [b'|]; [|discriminate].
    destruct r3 as [c'|]; [|discriminate]. injection H as -> -> ->.
    assert (fst (run_simulation self city 60 "conservative" w) = Ret a) as Ha
      by now rewrite E1.
    destruct a as [ha|].
    + right.
      destruct (run_Some_any _ _ _ _ _ _ Ha 60 "inertial" b (eq_sym R2)) as [hb ->].
      destruct (run_Some_any _ _ _ _ _ _ Ha 60 "aggressive" c (eq_sym R3)) as [hc ->].
      exists ha, hb, hc. auto.
    + left. pose proof (run_None_any _ _ _ _ _ Ha 60 "inertial") as Hb.
      pose proof (run_None_any _ _ _ _ _ Ha 60 "aggressive") as Hc.
      rewrite <- R2 in Hb. rewrite <- R3 in Hc. injection Hb as ->. injection Hc as ->. auto.
Qed.

Lemma last_date_max rows :
  match last_date rows with
  | None => rows = []
  | Some d => (exists r, r ∈ rows /\ date r = d) /\ forall r, r ∈ rows -> (date r <= d)%Z
  end.
Proof.
  induction rows as [|x rows IH]; [reflexivity|].
  cbn [last_date foldr]. fold (last_date rows).
  destruct (last_date rows) as [d|].
  - destruct IH as [(r & Hr & Hd) Hmax]. split.
    + destruct (Z.max_spec (date x) d) as [[_ ->]|[_ ->]].
      * exists r. split; [now right|exact Hd].
      * exists x. split; [left|reflexivity].
    + intros y [->|Hy]%elem_of_cons; [lia|]. specialize (Hmax y Hy). lia.
  - subst rows. split.
    + exists x. split; [left|reflexivity].
    + intros y [->|Hy]%elem_of_cons; [lia|]. now apply elem_of_nil in Hy.
Qed.

(** X12.  [last_date], which the constructor announces as the date the data
    is updated until, is the latest date of the frame: no city state that a
    lookup returns is later, and the state of at least one city has exactly
    that date; the states of other cities can be older. *)
Theorem last_date_bounds_lookups w d :
  last_date (df w) = Some d ->
  (forall city cs w1,
     get_city_state city w = (Ret cs, w1) ->
     exists r, obj w1 cs = to_series r /\ name r = city /\ (date r <= d)%Z)
  /\ exists city cs w1 r,
       get_city_state city w = (Ret cs, w1)
       /\ obj w1 cs = to_series r /\ date r = d.
Proof.
  intros Hd. pose proof (last_date_max (df w)) as H. rewrite Hd in H.
  destruct H as [(r & Hr & Hdr) Hmax]. split.
  - intros city cs w1 E.
    apply get_city_state_Ret in E as (r' & Hr' & Hn & _ & -> & ->).
    exists r'. rewrite looked_up_obj. auto.
  - destruct (get_city_state_found (name r) w r Hr eq_refl) as (cs & w1 & E).
    pose proof (get_city_state_Ret _ _ _ _ E) as (r' & Hr' & Hn & Hmax' & -> & ->).
    exists (name r), (S (length (objects w))), (looked_up w r'), r'.
    split; [exact E|]. split; [apply looked_up_obj|].
    specialize (Hmax' r Hr eq_refl). specialize (Hmax r' Hr'). lia.
Qed.

Lemma last_date_bounds_lookups_witness :
  exists city cs w1 r,
    get_city_state city Demo.world = (Ret cs, w1)
    /\ obj w1 cs = to_series r /\ date r = 21%Z.
Proof.
  destruct (last_date_bounds_lookups Demo.world 21 eq_refl) as [_ H]. exact H.
Defined.

(** * Properties of the data preparation *)

(** ** Ring repair *)

Lemma point_eqb_refl p : Geo.point_eqb p p = true.
Proof.
  induction p as [|a p IH]; [reflexivity|]. cbn [Geo.point_eqb].
  rewrite IH, andb_true_r. apply Qeq_bool_iff. reflexivity.
Qed.

(** What [close_ring] does: nothing, or (more than two points, first and
    last different) it appends the first point. *)
Lemma close_ring_cases ring :
  (Geo.close_ring ring = ring /\ (length ring <= 2 \/ Geo.closed ring = true))
  \/ (exists first rest,
        ring = first :: rest /\ 2 < length ring /\ Geo.closed ring = false
        /\ Geo.close_ring ring = (ring ++ [first])%list).
Proof.
  destruct ring as [|first rest]; [left; split; [reflexivity|left; cbn; lia]|].
  unfold Geo.close_ring, Geo.closed.
  destruct (Nat.ltb 2 (length (first :: rest))) eqn:El.
  - apply Nat.ltb_lt in El.
    destruct (Geo.point_eqb first (List.last (first :: rest) first)) eqn:Ep; cbn [negb andb].
    + left. auto.
    + right. exists first, rest. auto.
  - apply Nat.ltb_ge in El. left. auto.
Qed.

Lemma closed_snoc first rest :
  Geo.closed ((first :: rest) ++ [first])%list = true.
Proof.
  unfold Geo.closed. cbn [app]. change (first :: (rest ++ [first])%list)
    with ((first :: rest) ++ [first])%list.
  rewrite last_last. apply point_eqb_refl.
Qed.

Lemma close_ring_closed ring :
  2 < length (Geo.close_ring ring) -> Geo.closed (Geo.close_ring ring) = true.
Proof.
  destruct (close_ring_cases ring) as [[-> [H|H]]|(first & rest & -> & _ & _ & ->)].
  - lia.
  - auto.
  - intros _. apply closed_snoc.
Qed.

Lemma close_ring_fixed ring :
  length ring <= 2 \/ Geo.closed ring = true -> Geo.close_ring ring = ring.
Proof.
  intros H. destruct (close_ring_cases ring) as [[E _]|(first & rest & -> & Hl & Hc & _)];
    [exact E|]. destruct H as [H|H]; [lia|congruence].
Qed.

Lemma close_ring_idempotent ring :
  Geo.close_ring (Geo.close_ring ring) = Geo.close_ring ring.
Proof.
  apply close_ring_fixed.
  destruct (Nat.le_gt_cases (length (Geo.close_ring ring)) 2) as [H|H]; [now left|].
  right. now apply close_ring_closed.
Qed.

Lemma rings_repair g :
  Geo.rings (Geo.repair_coordinates g) = map Geo.close_ring (Geo.rings g).
Proof.
  destruct g as [c|c|c|c]; cbn [Geo.repair_coordinates Geo.rings map]; try reflexivity.
  symmetry. apply concat_map.
Qed.

(** X13.  After [repair_coordinates] every ring of the geometry that has
    more than two points is closed: its first and its last point are
    equal.  Rings of at most two points are left as they are. *)
Theorem repaired_rings_are_closed g ring :
  ring ∈ Geo.rings (Geo.repair_coordinates g) ->
  (2 < length ring -> Geo.closed ring = true)
  /\ (length ring <= 2 -> ring ∈ Geo.rings g).
Proof.
  rewrite rings_repair, list_elem_of_In, in_map_iff.
  intros (r & <- & Hr%list_elem_of_In). split.
  - apply close_ring_closed.
  - intros Hl.
    destruct (close_ring_cases r) as [[-> _]|(first & rest & -> & Hlen & _ & E)];
      [exact Hr|].
    rewrite E, length_app in Hl. cbn [length] in *. lia.
Qed.

Lemma repaired_rings_are_closed_witness :
  Geo.closed [[0; 0]; [4; 0]; [4; 3]; [0; 0]]%Q = true.
Proof.
  destruct (repaired_rings_are_closed
              (Geo.Polygon [[[0; 0]; [4; 0]; [4; 3]]%Q])
              [[0; 0]; [4; 0]; [4; 3]; [0; 0]]%Q) as [H _].
  - cbn. left.
  - apply H. cbn [length]. lia.
Defined.

(** X14.  [repair_coordinates] only ever appends the first point of a ring
    to that ring: it keeps the number of rings, each repaired ring is the
    ring itself or the ring with its first point appended; it leaves points
    and line strings alone, and geometries whose rings are closed or of at
    most two points; and repairing twice is repairing once (the same for
    [repair_geo_json]). *)
Theorem repair_appends_first_point_only g :
  Forall2 (fun r r' => r' = r \/ exists first, head r = Some first /\ r' = (r ++ [first])%list)
    (Geo.rings g) (Geo.rings (Geo.repair_coordinates g))
  /\ (Forall (fun r => length r <= 2 \/ Geo.closed r = true) (Geo.rings g) ->
      Geo.repair_coordinates g = g)
  /\ Geo.repair_coordinates (Geo.repair_coordinates g) = Geo.repair_coordinates g
  /\ Geo.repair_geo_json (Geo.repair_geo_json (Some g)) = Geo.repair_geo_json (Some g)
  /\ Geo.repair_geo_json None = None.
Proof.
  split; [|split; [|split; [|split]]].
  - rewrite rings_repair. induction (Geo.rings g) as [|r l IH]; cbn [map]; constructor; auto.
    destruct (close_ring_cases r) as [[-> _]|(first & rest & -> & _ & _ & ->)]; [now left|].
    right. exists first. auto.
  - intros H.
    assert (forall l : list Geo.Ring,
              Forall (fun r => length r <= 2 \/ Geo.closed r = true) l ->
              map Geo.close_ring l = l) as Hmap.
    { induction l as [|r l IH]; intros Hf; [reflexivity|].
      apply Forall_cons in Hf as [Hr Hl]. cbn [map].
      now rewrite (close_ring_fixed r Hr), (IH Hl). }
    destruct g as [c|c|c|c]; cbn [Geo.repair_coordinates Geo.rings] in *; try reflexivity.
    + now rewrite Hmap.
    + f_equal. induction c as [|p c IH]; [reflexivity|].
      cbn [concat map] in *. apply Forall_app in H as [Hp Hc].
      now rewrite (Hmap p Hp), (IH Hc).
  - assert (forall l : list Geo.Ring,
              map Geo.close_ring (map Geo.close_ring l) = map Geo.close_ring l) as Hmap.
    { intros l. rewrite map_map. apply map_ext. intros r. apply close_ring_idempotent. }
    destruct g as [c|c|c|c]; cbn [Geo.repair_coordinates]; try reflexivity.
    + now rewrite Hmap.
    + f_equal. rewrite map_map. apply map_ext. intros p. apply Hmap.
  - cbn [Geo.repair_geo_json]. f_equal.
    assert (forall l : list Geo.Ring,
              map Geo.close_ring (map Geo.close_ring l) = map Geo.close_ring l) as Hmap.
    { intros l. rewrite map_map. apply map_ext. intros r. apply close_ring_idempotent. }
    destruct g as [c|c|c|c]; cbn [Geo.repair_coordinates]; try reflexivity.
    + now rewrite Hmap.
    + f_equal. rewrite map_map. apply map_ext. intros p. apply Hmap.
  - reflexivity.
Qed.

(** ** The record of a city on a day *)

Lemma clamp01_cases x :
  ((x <= 0 /\ ProcessData.clamp01 x = 0)
   \/ (0 < x /\ x < 1 /\ ProcessData.clamp01 x = x)
   \/ (1 <= x /\ ProcessData.clamp01 x = 1))%Q.
Proof.
  unfold ProcessData.clamp01.
  destruct (Qle_bool 1 x) eqn:E1.
  - apply Qle_bool_iff in E1. right; right. split; [exact E1|reflexivity].
  - assert (x < 1)%Q as H1.
    { destruct (Qlt_le_dec x 1) as [H|H]; [exact H|].
      apply Qle_bool_iff in H. congruence. }
    destruct (Qle_bool x 0) eqn:E0.
    + apply Qle_bool_iff in E0. left. auto.
    + right; left. split; [|auto].
      destruct (Qlt_le_dec 0 x) as [H|H]; [exact H|].
      apply Qle_bool_iff in H. congruence.
Qed.

Lemma clamp01_unit x : (0 <= ProcessData.clamp01 x <= 1)%Q.
Proof.
  destruct (clamp01_cases x) as [[? ->]|[(? & ? & ->)|[? ->]]]; lra.
Qed.

(** X15.  Every record lies in its ranges: the occupied fraction and the
    encirclement score in [0,1], the distance not negative (for a geometric
    distance that is not negative), and [is_captured] 0 or 1. *)
Theorem city_record_ranges occupied_area total_area_m2 geom_distance
    buffer_occupied_area buffer_area :
  (0 < total_area_m2)%Q -> (0 < buffer_area)%Q -> (0 <= geom_distance)%Q ->
  let r := ProcessData.city_record occupied_area total_area_m2 geom_distance
             buffer_occupied_area buffer_area in
  (0 <= ProcessData.pct_occupied r <= 1)%Q
  /\ (0 <= ProcessData.encirclement_score r <= 1)%Q
  /\ (0 <= ProcessData.dist_to_front_m r)%Q
  /\ (ProcessData.is_captured r = 0 \/ ProcessData.is_captured r = 1)%Z.
Proof.
  intros _ _ Hd r. subst r. unfold ProcessData.city_record.
  cbn [ProcessData.pct_occupied ProcessData.encirclement_score
       ProcessData.dist_to_front_m ProcessData.is_captured].
  split; [apply round_unit, clamp01_unit|].
  split; [apply round_unit, clamp01_unit|]. split.
  - apply Qle_trans with (Num.round 0 0); [vm_compute; congruence|].
    apply round_mono. destruct (Qle_bool _ _); [exact Hd|apply Qle_refl].
  - destruct (Qle_bool _ _); auto.
Qed.

Lemma city_record_ranges_witness :
  (0 <= ProcessData.dist_to_front_m (ProcessData.city_record 0 2500000 (12345 # 10) 1000 90000000))%Q.
Proof.
  exact (proj1 (proj2 (proj2
    (city_record_ranges 0 2500000 (12345 # 10) 1000 90000000
       ltac:(vm_compute; congruence) ltac:(vm_compute; congruence)
       ltac:(vm_compute; congruence))))).
Defined.



(** ** The strategic priority score *)

(** The score of a row whose two cells are numbers. *)
Lemma priority_numeric (row : Series) d sw :
  row !! "dist_to_front_m" = Some (VNum d) ->
  row !! "symbolic_weight" = Some (VNum sw) ->
  Merger.calculate_strategic_priority row
  = Ret (if negb (Qle_bool 20000 d) && Qle_bool 8 sw then 3
         else if negb (Qle_bool 30000 d) then 2
         else if negb (Qle_bool 50000 d) then 1 else 0)%Z.
Proof.
  intros Hd Hs. unfold Merger.calculate_strategic_priority, Merger.bind, Series.getitem,
    Merger.lt, Merger.ge.
  rewrite Hd. destruct (negb (Qle_bool 20000 d)); cbn [andb].
  - rewrite Hs. destruct (Qle_bool 8 sw); [reflexivity|].
    destruct (negb (Qle_bool 30000 d)); [reflexivity|].
    destruct (negb (Qle_bool 50000 d)); reflexivity.
  - destruct (negb (Qle_bool 30000 d)); [reflexivity|].
    destruct (negb (Qle_bool 50000 d)); reflexivity.
Qed.

Lemma Qle_bool_false x y : Qle_bool x y = false <-> (y < x)%Q.
Proof.
  split.
  - intros H. destruct (Qlt_le_dec y x) as [G|G]; [exact G|].
    apply Qle_bool_iff in G. congruence.
  - intros H. destruct (Qle_bool x y) eqn:E; [|reflexivity].
    apply Qle_bool_iff in E. lra.
Qed.

Ltac qcases :=
  repeat match goal with
         | |- context [Qle_bool ?a ?b] =>
             let E := fresh "E" in
             destruct (Qle_bool a b) eqn:E;
             [apply Qle_bool_iff in E|apply Qle_bool_false in E]
         | H : context [Qle_bool ?a ?b] |- _ =>
             let E := fresh "E" in
             destruct (Qle_bool a b) eqn:E;
             [apply Qle_bool_iff in E|apply Qle_bool_false in E]
         end.

(** X17.  For a row whose distance [d] and symbolic weight [sw] are
    numbers the score is 3 exactly when [d < 20000] and [sw >= 8];
    otherwise it is 2, 1 or 0 as [d] is below 30000, below 50000 or not.
    So a city within 20 km whose weight is below 8 scores 2, and the score
    never decreases when a city is nearer to the front and weighs at least
    as much. *)
Theorem priority_by_distance_and_weight (row row' : Series) d sw d' sw' :
  row !! "dist_to_front_m" = Some (VNum d) ->
  row !! "symbolic_weight" = Some (VNum sw) ->
  row' !! "dist_to_front_m" = Some (VNum d') ->
  row' !! "symbolic_weight" = Some (VNum sw') ->
  exists score score',
    Merger.calculate_strategic_priority row = Ret score
    /\ Merger.calculate_strategic_priority row' = Ret score'
    /\ (0 <= score <= 3)%Z
    /\ (score = 3%Z <-> d < 20000 /\ 8 <= sw)%Q
    /\ (score = 2%Z <-> d < 30000 /\ ~ (d < 20000 /\ 8 <= sw))%Q
    /\ (score = 1%Z <-> 30000 <= d /\ d < 50000)%Q
    /\ (score = 0%Z <-> 50000 <= d)%Q
    /\ ((d' <= d)%Q -> (sw <= sw')%Q -> (score <= score')%Z).
Proof.
  intros Hd Hs Hd' Hs'. eexists _, _.
  split; [apply (priority_numeric _ _ _ Hd Hs)|].
  split; [apply (priority_numeric _ _ _ Hd' Hs')|].
  repeat split; qcases; cbn [negb andb] in *; try lia; try lra;
    try (intros; discriminate); try (intros; exfalso; lra);
    try (intros [? ?]; exfalso; lra); try (intros [? H]; exfalso; apply H; split; lra).
Qed.

Lemma priority_by_distance_and_weight_witness :
  Merger.calculate_strategic_priority (Demo.columns 15000 0) = Ret 3%Z.
Proof.
  destruct (priority_by_distance_and_weight
              (Demo.columns 15000 0) (<["symbolic_weight" := VNum 5]> (Demo.columns 15000 0))
              15000 8 15000 5
              ltac:(vm_compute; reflexivity) ltac:(vm_compute; reflexivity)
              ltac:(vm_compute; reflexivity) ltac:(vm_compute; reflexivity))
    as (score & score' & E & _ & _ & H3 & _).
  rewrite E. f_equal. apply H3. split; vm_compute; congruence.
Defined.

(** X18.  A row without [symbolic_weight] raises [KeyError] for that label
    only when its distance is below 20000: from 20000 on the weight is
    never read and the score is the score by distance.  A row without
    [dist_to_front_m] always raises [KeyError] for that label, and a
    distance that is text raises [TypeError]. *)
Theorem priority_missing_cells (row : Series) :
  (row !! "dist_to_front_m" = None ->
   Merger.calculate_strategic_priority row = Raise (KeyError ["dist_to_front_m"]))
  /\ (forall txt, row !! "dist_to_front_m" = Some (VStr txt) ->
      Merger.calculate_strategic_priority row = Raise TypeError)
  /\ (forall d, row !! "dist_to_front_m" = Some (VNum d) ->
      row !! "symbolic_weight" = None ->
      ((d < 20000)%Q ->
       Merger.calculate_strategic_priority row = Raise (KeyError ["symbolic_weight"]))
      /\ ((20000 <= d)%Q ->
          Merger.calculate_strategic_priority row
          = Ret (if negb (Qle_bool 30000 d) then 2
                 else if negb (Qle_bool 50000 d) then 1 else 0)%Z)).
Proof.
  unfold Merger.calculate_strategic_priority, Merger.bind, Series.getitem, Merger.lt.
  split; [|split].
  - intros ->. reflexivity.
  - intros txt ->. reflexivity.
  - intros d -> Hs. split.
    + intros Hd. apply Qle_bool_false in Hd. rewrite Hd. cbn [negb]. now rewrite Hs.
    + intros Hd. apply Qle_bool_iff in Hd. rewrite Hd. cbn [negb].
      destruct (negb (Qle_bool 30000 d)); [reflexivity|].
      destruct (negb (Qle_bool 50000 d)); reflexivity.
Qed.

Lemma priority_missing_cells_witness :
  Merger.calculate_strategic_priority (delete "symbolic_weight" (Demo.columns 15000 0))
  = Raise (KeyError ["symbolic_weight"])
  /\ Merger.calculate_strategic_priority (delete "symbolic_weight" (Demo.columns 25000 0))
     = Ret 2%Z.
Proof.
  split.
  - destruct (priority_missing_cells (delete "symbolic_weight" (Demo.columns 15000 0)))
      as (_ & _ & H).
    destruct (H 15000%Q ltac:(vm_compute; reflexivity) ltac:(vm_compute; reflexivity))
      as [H1 _].
    apply H1. vm_compute. reflexivity.
  - destruct (priority_missing_cells (delete "symbolic_weight" (Demo.columns 25000 0)))
      as (_ & _ & H).
    destruct (H 25000%Q ltac:(vm_compute; reflexivity) ltac:(vm_compute; reflexivity))
      as [_ H2].
    rewrite H2; [reflexivity|vm_compute; congruence].
Defined.

(** ** The temporal split *)

Lemma masks_exclusive r :
  (Training.train_mask r = true /\ Training.val_mask r = false
   /\ Training.test_mask r = false)
  \/ (Training.train_mask r = false /\ Training.val_mask r = true
      /\ Training.test_mask r = false)
  \/ (Training.train_mask r = false /\ Training.val_mask r = false
      /\ Training.test_mask r = true).
Proof.
  unfold Training.train_mask, Training.val_mask, Training.test_mask,
    Training.date_2024_01_01, Training.date_2024_07_01.
  destruct (Z.ltb_spec (date r) 738886), (Z.leb_spec 738886 (date r)),
    (Z.ltb_spec (date r) 739068), (Z.leb_spec 739068 (date r));
    cbn [andb]; try lia; auto.
Qed.

(** X19.  The temporal split.  In [cascade1.py] the sets are the rows of
    the three date masks; in [cascade2.py] and [cascade3.py] they are the
    rows of the date masks that the row mask [keep] of the script selects
    too.  For any [keep]: a row that [keep] selects is in exactly one of the
    train, validation and test sets, a row that it does not select is in
    none, and the three sets together are the selected rows of the frame.
    The sets are separated in time: every training row is earlier than
    every validation row, and every validation row earlier than every test
    row.  With no row mask the sets are those of the date masks alone and
    together are the whole frame.  Every row of a set of [cascade2.py] is
    closer than 20000 m to the front, and every row of a set of
    [cascade3.py] is a free city. *)
Theorem temporal_split_partitions (keep : Row -> bool) rows :
  (Training.train_set keep rows ++ Training.val_set keep rows
   ++ Training.test_set keep rows)%list ≡ₚ Training.loc keep rows
  /\ (forall r, r ∈ rows -> keep r = true ->
        ((r ∈ Training.train_set keep rows)
         /\ (r ∉ Training.val_set keep rows)
         /\ (r ∉ Training.test_set keep rows))
        \/ ((r ∉ Training.train_set keep rows)
            /\ (r ∈ Training.val_set keep rows)
            /\ (r ∉ Training.test_set keep rows))
        \/ ((r ∉ Training.train_set keep rows)
            /\ (r ∉ Training.val_set keep rows)
            /\ (r ∈ Training.test_set keep rows)))
  /\ (forall r, keep r = false ->
        (r ∉ Training.train_set keep rows)
        /\ (r ∉ Training.val_set keep rows)
        /\ (r ∉ Training.test_set keep rows))
  /\ (forall a b c,
        a ∈ Training.train_set keep rows ->
        b ∈ Training.val_set keep rows ->
        c ∈ Training.test_set keep rows ->
        (date a < date b < date c)%Z)
  /\ (Training.train_set Training.all_rows rows = Training.loc Training.train_mask rows
      /\ Training.val_set Training.all_rows rows = Training.loc Training.val_mask rows
      /\ Training.test_set Training.all_rows rows = Training.loc Training.test_mask rows
      /\ Training.loc Training.all_rows rows = rows)
  /\ (forall r,
        r ∈ (Training.train_set Training.relevant_zone rows
             ++ Training.val_set Training.relevant_zone rows
             ++ Training.test_set Training.relevant_zone rows)%list ->
        exists d, cols r !! "dist_to_front_m" = Some (VNum d) /\ (d < 20000)%Q)
  /\ (forall r,
        r ∈ (Training.train_set Training.valid_rows rows
             ++ Training.val_set Training.valid_rows rows
             ++ Training.test_set Training.valid_rows rows)%list ->
        exists v, cols r !! "is_captured" = Some (VNum v) /\ (v == 0)%Q).
Proof.
  assert (forall keep mask l r,
            r ∈ Training.loc (Training.both mask keep) l
            <-> r ∈ l /\ mask r = true /\ keep r = true) as Hloc.
  { intros k mask l r. unfold Training.loc, Training.both.
    rewrite !list_elem_of_In, filter_In, andb_true_iff. reflexivity. }
  assert (forall keep r,
            r ∈ (Training.train_set keep rows ++ Training.val_set keep rows
                 ++ Training.test_set keep rows)%list -> keep r = true) as Hkept.
  { intros k r. unfold Training.train_set, Training.val_set, Training.test_set.
    rewrite !elem_of_app, !Hloc. intros [H|[H|H]]; apply H. }
  unfold Training.train_set, Training.val_set, Training.test_set in *.
  split; [|split; [|split; [|split; [|split; [|split]]]]].
  - unfold Training.loc, Training.both. clear. induction rows as [|r rows IH]; [reflexivity|].
    cbn [List.filter].
    destruct (keep r); rewrite ?andb_false_r, ?andb_true_r; [|exact IH].
    destruct (masks_exclusive r) as [(-> & -> & ->)|[(-> & -> & ->)|(-> & -> & ->)]].
    + cbn [app]. now constructor.
    + cbn [app]. symmetry. apply Permutation_cons_app. now symmetry.
    + rewrite app_assoc. symmetry. apply Permutation_cons_app.
      rewrite <- app_assoc. now symmetry.
  - intros r Hr Hk. rewrite !Hloc.
    destruct (masks_exclusive r) as [(-> & -> & ->)|[(-> & -> & ->)|(-> & -> & ->)]];
      [left|right; left|right; right]; repeat split; auto;
      intros (_ & ? & _); discriminate.
  - intros r Hk. rewrite !Hloc. repeat split; intros (_ & _ & ?); congruence.
  - intros a b c (_ & Ha & _)%Hloc (_ & Hb & _)%Hloc (_ & Hc & _)%Hloc.
    unfold Training.train_mask, Training.val_mask, Training.test_mask,
      Training.date_2024_01_01, Training.date_2024_07_01 in *.
    apply Z.ltb_lt in Ha. apply andb_prop in Hb as [Hb1 Hb2].
    apply Z.leb_le in Hb1. apply Z.ltb_lt in Hb2. apply Z.leb_le in Hc. lia.
  - assert (forall mask : Row -> bool,
              Training.loc (Training.both mask Training.all_rows) rows
              = Training.loc mask rows) as Hall.
    { intros mask. unfold Training.loc, Training.both, Training.all_rows.
      apply filter_ext. intros r. apply andb_true_r. }
    repeat split; try apply Hall.
    clear. unfold Training.loc, Training.all_rows.
    induction rows as [|r l IH]; [reflexivity|].
    cbn [List.filter]. now rewrite IH.
  - intros r Hr%Hkept. unfold Training.relevant_zone, Training.lt_cell, Training.cell in Hr.
    destruct (cols r !! "dist_to_front_m") as [[d| |]|]; try discriminate.
    exists d. split; [reflexivity|].
    apply negb_true_iff in Hr. apply Qnot_le_lt. intros Hle.
    apply Qle_bool_iff in Hle. congruence.
  - intros r Hr%Hkept.
    unfold Training.valid_rows, Training.free_cities_mask, Training.eq_cell,
      Training.cell in Hr.
    apply andb_prop in Hr as [Hr _].
    destruct (cols r !! "is_captured") as [[v| |]|]; try discriminate.
    exists v. split; [reflexivity|]. now apply Qeq_bool_iff.
Qed.
